(** * Lung Segmenter GUI: a shallow embedding of the control core

    The development follows the Python sources

    - [gui/main_window.py]  (class [LungSegmenterGUI]: the ROI callbacks, the
      dispatch handlers, the completion and error handlers of the two
      background jobs, reset-to-base, configuration loading),
    - [models/base_model.py] (class [BaseSegmenter]: [preprocess_volume]),
    - [main.py] (function [main]).

    Python objects with identity (numpy arrays) live in a store and are
    referred to by location, so that [mask.copy()] and plain assignment of a
    reference can be told apart.  Handlers are computations in a state and
    exception monad: an exception keeps the state reached when it was raised,
    as a Python exception leaves the attributes that were already assigned. *)

From Stdlib Require QArith.
From stdpp Require Import gmap strings list fin_maps.

Open Scope Z_scope.

(** ** Python integers and sequences *)

(** [a // b] on Python integers is floor division; for the positive divisors
    used in the sources it is [Z.div]. *)
Definition floordiv (a b : Z) : Z := a / b.
Infix "//" := floordiv (at level 40, left associativity) : Z_scope.

(** Normalisation of one bound of a slice [start:stop] over a sequence of
    length [n]: a negative bound counts from the end, and every bound is
    clamped into [0, n]. *)
Definition slice_index (n i : Z) : Z :=
  if i <? 0 then Z.max 0 (i + n) else Z.min i n.

(** Number of elements selected by [start:stop] (step 1). *)
Definition slice_len (n start stop : Z) : Z :=
  Z.max 0 (slice_index n stop - slice_index n start).

(** [l[start:stop]] *)
Definition py_slice {A} (start stop : Z) (l : list A) : list A :=
  let n := Z.of_nat (length l) in
  take (Z.to_nat (slice_len n start stop))
       (drop (Z.to_nat (slice_index n start)) l).

(** ** numpy arrays and the object store *)

(** A three-dimensional array, indexed (z, y, x).  The shape is kept next to
    the nested data, as numpy does, so that an empty slice still has a
    shape. *)
Record ndarray := NdArray {
  shape : Z * Z * Z;
  data : list (list (list Z))
}.

Definition wf_ndarray (a : ndarray) : Prop :=
  let '(nz, ny, nx) := shape a in
  Z.of_nat (length (data a)) = nz ∧
  Forall (λ plane, Z.of_nat (length plane) = ny ∧
                   Forall (λ row, Z.of_nat (length row) = nx) plane) (data a).

(** [a[z, y, x]] for indices inside the array *)
Definition nd_get (a : ndarray) (z y x : nat) : option Z :=
  plane ← data a !! z; row ← plane !! y; row !! x.

(** [np.zeros((nz, ny, nx))] *)
Definition zeros (nz ny nx : nat) : ndarray :=
  {| shape := (Z.of_nat nz, Z.of_nat ny, Z.of_nat nx);
     data := replicate nz (replicate ny (replicate nx 0)) |}.

(** [a[z0:z1, y0:y1, x0:x1]] (basic slicing; the contents of the view) *)
Definition nd_slice (a : ndarray) (z0 z1 y0 y1 x0 x1 : Z) : ndarray :=
  let '(nz, ny, nx) := shape a in
  {| shape := (slice_len nz z0 z1, slice_len ny y0 y1, slice_len nx x0 x1);
     data := (λ plane, py_slice x0 x1 <$> py_slice y0 y1 plane)
               <$> py_slice z0 z1 (data a) |}.

(** References to arrays are positions in the store; the store only grows. *)
Abbreviation loc := nat (only parsing).
Abbreviation store := (list ndarray) (only parsing).

(** Allocation of a new array object. *)
Definition alloc (a : ndarray) (h : store) : loc * store :=
  (length h, h ++ [a]).

(** [arr.copy()]: a new object with the same shape and contents. *)
Definition nd_copy (l : loc) (h : store) : option (loc * store) :=
  a ← h !! l; Some (alloc a h).


(** ** The models' base class: [BaseSegmenter] *)

Definition ROI6 : Type := Z * Z * Z * Z * Z * Z.

Module BaseSegmenter.

(** [preprocess_volume(self, volume, roi_coords=None)]: the result is the new
    array's location together with the store after the call; [None] only for
    a reference that is not in the store. *)
Definition preprocess_volume (volume : loc) (roi_coords : option ROI6)
    (h : store) : option (loc * store) :=
  match roi_coords with
  | Some (z0, z1, y0, y1, x0, x1) =>
      a ← h !! volume;
      Some (alloc (nd_slice a z0 (z1 + 1) y0 (y1 + 1) x0 (x1 + 1)) h)
  | None => nd_copy volume h
  end.




(** [(mask > 0).astype(np.uint8)] on the contents of an array. *)
Definition binarize (a : ndarray) : ndarray :=
  {| shape := shape a;
     data := (λ plane : list (list Z),
                (λ row : list Z, (λ v : Z, if 0 <? v then 1 else 0) <$> row)
                  <$> plane) <$> data a |}.

(** [postprocess_mask(self, mask)]: a new array; the temporary boolean array
    of the comparison is not kept. *)
Definition postprocess_mask (mask : loc) (h : store) : option (loc * store) :=
  a ← h !! mask; Some (alloc (binarize a) h).

End BaseSegmenter.

(** ** Data of the main window *)

(** [UIState] of core/state_manager.py, as the window uses it. *)
Inductive UIState :=
  | INITIAL | VOLUME_LOADED | ROI_DEFINED | SEGMENTING | MASK_READY | REFINING.

#[global] Instance UIState_eq_dec : EqDecision UIState.
Proof. solve_decision. Defined.

(** Exceptions that can leave a handler.  [BusyError] is the name the
    specification gives to a refused dispatch; [DanglingReference] is not a
    Python exception but the model's answer to a location outside the
    store. *)
Inductive Exn :=
  | TypeError | AttributeError | KeyError (key : string) | ValueError
  | PreconditionError | IllegalTransitionError | BusyError
  | FileNotFoundError | YAMLError
  | DanglingReference.

#[global] Instance Exn_eq_dec : EqDecision Exn.
Proof. solve_decision. Defined.

(** A slice-anchored rectangle [(z, y0, y1, x0, x1)], the layout of
    [roi_manager.roi1_3d] and [roi2_3d] that [_roi2_callback] and
    [_draw_single_roi] unpack. *)
Definition ROI5 : Type := Z * Z * Z * Z * Z.

(** Modelled from the spec: [ROIManager] of gui/widgets/roi_selector.py, which
    is not among the sources.  It stores the two annotations; [set_roi1]
    records unconditionally, [set_roi2] fails with [PreconditionError] while
    ROI1 is unset, [has_both_rois] holds iff both are present, [reset] clears
    both.  The order of the arguments is the one of the calls in
    [_roi1_callback] and [_roi2_callback]. *)
Record ROIManager := {
  roi1_3d : option ROI5;
  roi2_3d : option ROI5
}.

(** Modelled from the spec: [ROIManager.set_roi1(slice, x_min, x_max, y_min,
    y_max)] records the first annotation unconditionally. *)
Definition set_roi1 (z x_min x_max y_min y_max : Z) (rm : ROIManager) : ROIManager :=
  {| roi1_3d := Some (z, y_min, y_max, x_min, x_max); roi2_3d := roi2_3d rm |}.

(** Modelled from the spec: [ROIManager.set_roi2]; [None] stands for the
    [PreconditionError] raised while ROI1 is unset. *)
Definition set_roi2 (z x_min x_max y_min y_max : Z) (rm : ROIManager)
    : option ROIManager :=
  match roi1_3d rm with
  | None => None
  | Some _ =>
      Some {| roi1_3d := roi1_3d rm;
              roi2_3d := Some (z, y_min, y_max, x_min, x_max) |}
  end.

(** Modelled from the spec: [ROIManager.has_both_rois()]. *)
Definition has_both_rois (rm : ROIManager) : bool :=
  bool_decide (is_Some (roi1_3d rm)) && bool_decide (is_Some (roi2_3d rm)).

(** Modelled from the spec: [ROIManager.reset()]. *)
Definition roi_reset (rm : ROIManager) : ROIManager :=
  {| roi1_3d := None; roi2_3d := None |}.

(** The [stats] dictionary of a job result: the keys the handlers read.
    Numbers are integers here; the handlers only store or display them. *)
Record Stats := {
  st_organ_key : option string;
  st_timestamp : option Z;
  st_elapsed_time : option Z;
  st_base_count : option Z;
  st_final_count : option Z;
  st_improvement_percent : option Z;
  st_volume_ml : option Z
}.

Inductive OpKind := segmentation | refinement.

#[global] Instance OpKind_eq_dec : EqDecision OpKind.
Proof. solve_decision. Defined.

(** One entry of [self.operation_history]. *)
Record OperationRecord := {
  op_timestamp : Z;
  op_type : OpKind;
  op_organ : string;
  op_stats : Stats
}.

(** The refinement parameters read from the sliders. *)
Record Params := {
  hu_min : Z; hu_max : Z; dilation_iter : Z; closing_size : Z; fill_holes : bool
}.

(** What [get_model_instance] returns on success. *)
Record ModelInstance := { model_name : string; model_use_cpu : bool }.

(** A background worker, as constructed by the dispatch handlers. *)
Inductive Worker :=
  | DataLoadWorker (folder : string)
  | SegmentationWorker (model : ModelInstance) (volume : option loc) (roi_coords : ROI6)
  | MaskRefinementWorker (base_mask : loc) (volume : option loc)
                         (params : Params) (organ_key : string).

(** Lines written by [_add_to_history] (the text pane, not
    [operation_history]); the clock prefix is left out. *)
Inductive LogMsg :=
  | LogLoadStart (folder : string)
  | LogVolumeLoaded (sh : Z * Z * Z)
  | LogLoadError (msg : string)
  | LogRoi1 (roi : ROI5)
  | LogRoi2 (roi : ROI5)
  | LogRoiReset
  | LogSegmentationStart (name : string) (roi : ROI6)
  | LogSegmentationDone (organ : string)
  | LogSegmentationError (msg : string)
  | LogRefinementStart (organ : string) (p : Params)
  | LogRefinementDone (organ : string)
  | LogRefinementError (msg : string)
  | LogResetToBase (organ : string).

(** Message boxes shown by the handlers. *)
Inductive Dialog :=
  | InfoVolumeLoaded
  | CritLoadFailed (msg : string)
  | WarnDrawBothRois
  | WarnCombinedRoi
  | CritModelNotLoaded (name : string)
  | InfoSegmentationReady (organ : string)
  | CritError (msg : string)
  | WarnSegmentFirst
  | WarnConfigNotFound (path : string).

Record ProgressBar := { pb_visible : bool; pb_range : Z * Z; pb_value : Z }.

(** A [QComboBox]: its items and its current text. *)
Record ComboBox := { items : list string; currentText : string }.

Definition addItem (t : string) (c : ComboBox) : ComboBox :=
  {| items := items c ++ [t];
     currentText := match items c with [] => t | _ => currentText c end |}.

Definition setCurrentText (t : string) (c : ComboBox) : ComboBox :=
  if bool_decide (t ∈ items c) then {| items := items c; currentText := t |} else c.

(** The widgets the handlers read or write. *)
Record Widgets := {
  organ_combo : ComboBox;
  model_combo : string;
  cpu_checkbox : bool;
  sliders : Params;
  progress_bar : ProgressBar;
  progress_message : string;
  label_mask_stats : option (string * Stats);
  history_text : list LogMsg;
  dialogs : list Dialog
}.

(** The attributes of [LungSegmenterGUI] together with the object store, the
    clock read by [datetime.now()] and the workers started so far.
    Attributes that only feed the rendering or are handed to the workers as
    they are (spacing, origin, direction, window and level, the saved view
    limits) are left out. *)
Record App := {
  volume : option loc;
  heap : store;
  masks : gmap string loc;
  base_masks : gmap string loc;
  roi_manager : ROIManager;
  current_slice : Z;
  ui_state : UIState;
  operation_history : list OperationRecord;
  widgets : Widgets;
  clock : Z;
  started : list Worker
}.

(** Attribute assignment. *)
Definition with_volume (v : option loc) (s : App) : App :=
  {| volume := v; heap := heap s; masks := masks s; base_masks := base_masks s;
     roi_manager := roi_manager s; current_slice := current_slice s;
     ui_state := ui_state s; operation_history := operation_history s;
     widgets := widgets s; clock := clock s; started := started s |}.

Definition with_heap (h : store) (s : App) : App :=
  {| volume := volume s; heap := h; masks := masks s; base_masks := base_masks s;
     roi_manager := roi_manager s; current_slice := current_slice s;
     ui_state := ui_state s; operation_history := operation_history s;
     widgets := widgets s; clock := clock s; started := started s |}.

Definition with_masks (m : gmap string loc) (s : App) : App :=
  {| volume := volume s; heap := heap s; masks := m; base_masks := base_masks s;
     roi_manager := roi_manager s; current_slice := current_slice s;
     ui_state := ui_state s; operation_history := operation_history s;
     widgets := widgets s; clock := clock s; started := started s |}.

Definition with_base_masks (m : gmap string loc) (s : App) : App :=
  {| volume := volume s; heap := heap s; masks := masks s; base_masks := m;
     roi_manager := roi_manager s; current_slice := current_slice s;
     ui_state := ui_state s; operation_history := operation_history s;
     widgets := widgets s; clock := clock s; started := started s |}.

Definition with_roi_manager (rm : ROIManager) (s : App) : App :=
  {| volume := volume s; heap := heap s; masks := masks s; base_masks := base_masks s;
     roi_manager := rm; current_slice := current_slice s;
     ui_state := ui_state s; operation_history := operation_history s;
     widgets := widgets s; clock := clock s; started := started s |}.

Definition with_current_slice (z : Z) (s : App) : App :=
  {| volume := volume s; heap := heap s; masks := masks s; base_masks := base_masks s;
     roi_manager := roi_manager s; current_slice := z;
     ui_state := ui_state s; operation_history := operation_history s;
     widgets := widgets s; clock := clock s; started := started s |}.

Definition with_ui_state (u : UIState) (s : App) : App :=
  {| volume := volume s; heap := heap s; masks := masks s; base_masks := base_masks s;
     roi_manager := roi_manager s; current_slice := current_slice s;
     ui_state := u; operation_history := operation_history s;
     widgets := widgets s; clock := clock s; started := started s |}.

Definition with_operation_history (l : list OperationRecord) (s : App) : App :=
  {| volume := volume s; heap := heap s; masks := masks s; base_masks := base_masks s;
     roi_manager := roi_manager s; current_slice := current_slice s;
     ui_state := ui_state s; operation_history := l;
     widgets := widgets s; clock := clock s; started := started s |}.

Definition with_widgets (w : Widgets) (s : App) : App :=
  {| volume := volume s; heap := heap s; masks := masks s; base_masks := base_masks s;
     roi_manager := roi_manager s; current_slice := current_slice s;
     ui_state := ui_state s; operation_history := operation_history s;
     widgets := w; clock := clock s; started := started s |}.

Definition with_started (l : list Worker) (s : App) : App :=
  {| volume := volume s; heap := heap s; masks := masks s; base_masks := base_masks s;
     roi_manager := roi_manager s; current_slice := current_slice s;
     ui_state := ui_state s; operation_history := operation_history s;
     widgets := widgets s; clock := clock s; started := l |}.

Definition with_organ_combo (c : ComboBox) (w : Widgets) : Widgets :=
  {| organ_combo := c; model_combo := model_combo w; cpu_checkbox := cpu_checkbox w;
     sliders := sliders w; progress_bar := progress_bar w;
     progress_message := progress_message w; label_mask_stats := label_mask_stats w;
     history_text := history_text w; dialogs := dialogs w |}.

Definition with_progress_bar (p : ProgressBar) (w : Widgets) : Widgets :=
  {| organ_combo := organ_combo w; model_combo := model_combo w;
     cpu_checkbox := cpu_checkbox w; sliders := sliders w; progress_bar := p;
     progress_message := progress_message w; label_mask_stats := label_mask_stats w;
     history_text := history_text w; dialogs := dialogs w |}.

Definition with_progress_message (m : string) (w : Widgets) : Widgets :=
  {| organ_combo := organ_combo w; model_combo := model_combo w;
     cpu_checkbox := cpu_checkbox w; sliders := sliders w;
     progress_bar := progress_bar w; progress_message := m;
     label_mask_stats := label_mask_stats w;
     history_text := history_text w; dialogs := dialogs w |}.

Definition with_label_mask_stats (l : option (string * Stats)) (w : Widgets) : Widgets :=
  {| organ_combo := organ_combo w; model_combo := model_combo w;
     cpu_checkbox := cpu_checkbox w; sliders := sliders w;
     progress_bar := progress_bar w; progress_message := progress_message w;
     label_mask_stats := l;
     history_text := history_text w; dialogs := dialogs w |}.

Definition with_history_text (l : list LogMsg) (w : Widgets) : Widgets :=
  {| organ_combo := organ_combo w; model_combo := model_combo w;
     cpu_checkbox := cpu_checkbox w; sliders := sliders w;
     progress_bar := progress_bar w; progress_message := progress_message w;
     label_mask_stats := label_mask_stats w;
     history_text := l; dialogs := dialogs w |}.

Definition with_dialogs (l : list Dialog) (w : Widgets) : Widgets :=
  {| organ_combo := organ_combo w; model_combo := model_combo w;
     cpu_checkbox := cpu_checkbox w; sliders := sliders w;
     progress_bar := progress_bar w; progress_message := progress_message w;
     label_mask_stats := label_mask_stats w;
     history_text := history_text w; dialogs := l |}.

(** ** Handlers as computations *)

(** The result of running a handler: it returns, or an exception leaves it;
    in both cases with the state reached at that point. *)
Inductive Outcome (A : Type) :=
  | Return (a : A) (s : App)
  | Raise (e : Exn) (s : App).
Arguments Return {A} a s.
Arguments Raise {A} e s.

Definition M (A : Type) : Type := App → Outcome A.

Definition outcome_state {A} (o : Outcome A) : App :=
  match o with Return _ s => s | Raise _ s => s end.

Definition raised {A} (o : Outcome A) : option Exn :=
  match o with Return _ _ => None | Raise e _ => Some e end.

#[global] Instance M_ret : MRet M := λ A a s, Return a s.
#[global] Instance M_bind : MBind M := λ A B f c s,
  match c s with
  | Return a s' => f a s'
  | Raise e s' => Raise e s'
  end.
#[global] Instance M_throw : MThrow Exn M := λ A e s, Raise e s.

Definition gets {A} (f : App → A) : M A := λ s, Return (f s) s.
Definition modify (f : App → App) : M unit := λ s, Return tt (f s).
Definition modify_widgets (f : Widgets → Widgets) : M unit :=
  modify (λ s, with_widgets (f (widgets s)) s).

(** Unpacking of an optional value: [None] raises [e]. *)
Definition unpack {A} (e : Exn) (o : option A) : M A :=
  match o with Some a => mret a | None => mthrow e end.

(** ** Collaborators outside the sources

    The window calls [UIStateManager.transition_to],
    [ROIManager.get_combined_roi_coords] and
    [ModelRegistry.get_model_instance], whose modules (core/state_manager.py,
    gui/widgets/roi_selector.py, core/model_loader.py) are not among the
    sources.  They are parameters of the handlers:
    - [allowed cur tgt] tells whether the state manager accepts the
      transition from [cur] to [tgt]; a refused transition raises
      [IllegalTransitionError] and leaves the state as it is;
    - [get_combined_roi_coords] yields the 3D box or [None] for the
      [ValueError] the window catches;
    - [get_model_instance] yields the model or [None]. *)
Class Core := {
  allowed : UIState → UIState → bool;
  get_combined_roi_coords : ROIManager → Z * Z * Z → option ROI6;
  get_model_instance : string → bool → option ModelInstance
}.

(** Modelled from the spec: the transition table of the workflow state
    machine (core/state_manager.py is not among the sources).  An edge exists
    from [cur] to [tgt] iff the table of the specification lists one. *)
Definition spec_allowed (cur tgt : UIState) : bool :=
  match cur, tgt with
  | INITIAL, VOLUME_LOADED
  | VOLUME_LOADED, VOLUME_LOADED
  | VOLUME_LOADED, ROI_DEFINED
  | ROI_DEFINED, VOLUME_LOADED
  | ROI_DEFINED, SEGMENTING
  | SEGMENTING, MASK_READY
  | SEGMENTING, ROI_DEFINED
  | MASK_READY, REFINING
  | REFINING, MASK_READY
  | MASK_READY, VOLUME_LOADED => true
  | _, _ => false
  end.

(** Modelled from the spec: clipping of one extent of the combined region
    into [0, dim - 1] (gui/widgets/roi_selector.py is not among the
    sources). *)
Definition clip (dim v : Z) : Z := Z.max 0 (Z.min (dim - 1) v).

(** Modelled from the spec: the combined 3D region of
    [ROIManager.get_combined_roi_coords] (gui/widgets/roi_selector.py is not
    among the sources): the two slices sorted, the rectangle of the second
    annotation, every extent clipped into [0, dim - 1], and the box rejected
    when an axis extent is not positive. *)
Definition spec_combined (rm : ROIManager) (sh : Z * Z * Z) : option ROI6 :=
  match roi1_3d rm, roi2_3d rm with
  | Some (s1, _, _, _, _), Some (s2, y0, y1, x0, x1) =>
      let '(nz, ny, nx) := sh in
      let z0 := clip nz (Z.min s1 s2) in
      let z1 := clip nz (Z.max s1 s2) in
      let y0 := clip ny y0 in
      let y1 := clip ny y1 in
      let x0 := clip nx x0 in
      let x1 := clip nx x1 in
      if bool_decide (z0 < z1 ∧ y0 < y1 ∧ x0 < x1)
      then Some (z0, z1, y0, y1, x0, x1) else None
  | _, _ => None
  end.

(** The collaborators as the specification describes them. *)
Definition spec_core : Core :=
  {| allowed := spec_allowed;
     get_combined_roi_coords := spec_combined;
     get_model_instance := λ name use_cpu,
       Some {| model_name := name; model_use_cpu := use_cpu |} |}.

(** The same collaborators with a state manager that accepts every
    transition, that is, with state gating out of the way. *)
Definition ungated_core : Core :=
  {| allowed := λ _ _, true;
     get_combined_roi_coords := spec_combined;
     get_model_instance := λ name use_cpu,
       Some {| model_name := name; model_use_cpu := use_cpu |} |}.

(** ** The handlers of [LungSegmenterGUI] *)

Section Handlers.
Context `{Core}.

(** [self.state_manager.transition_to(target)] *)
Definition transition_to (target : UIState) : M unit := λ s,
  if allowed (ui_state s) target
  then Return tt (with_ui_state target s)
  else Raise IllegalTransitionError s.

(** [self._add_to_history(message)] *)
Definition _add_to_history (message : LogMsg) : M unit :=
  modify_widgets (λ w, with_history_text (history_text w ++ [message]) w).

(** A [QMessageBox] shown and dismissed. *)
Definition message_box (d : Dialog) : M unit :=
  modify_widgets (λ w, with_dialogs (dialogs w ++ [d]) w).

(** [_save_view_state(); _update_display(); _restore_view_state();
    canvas.draw()]: rendering, which reads the volume, the masks and the
    annotations and writes to the matplotlib axes only. *)
Definition _refresh_view : M unit := mret tt.

(** [self.volume.shape] *)
Definition volume_shape : M (Z * Z * Z) :=
  v ← gets volume;
  l ← unpack AttributeError v;
  h ← gets heap;
  a ← unpack DanglingReference (h !! l);
  mret (shape a).

(** [progress_bar.setVisible(False)] and the progress message emptied *)
Definition hide_progress : M unit :=
  modify_widgets (λ w,
    with_progress_message EmptyString
      (with_progress_bar {| pb_visible := false; pb_range := pb_range (progress_bar w);
                            pb_value := pb_value (progress_bar w) |} w)).

(** [_load_dicom()], on the folder the file dialog returns (the empty string
    when the dialog is cancelled) *)
Definition _load_dicom (folder : string) : M unit :=
  if bool_decide (folder = EmptyString) then mret tt
  else
    _add_to_history (LogLoadStart folder);;
    transition_to INITIAL;;
    modify_widgets (λ w,
      with_progress_message "Загрузка DICOM..."
        (with_progress_bar {| pb_visible := true; pb_range := (0, 0);
                              pb_value := pb_value (progress_bar w) |} w));;
    modify (λ s, with_started (started s ++ [DataLoadWorker folder]) s).

(** [_on_load_finished(volume, spacing, origin, direction, folder)] *)
Definition _on_load_finished (vol : loc) : M unit :=
  modify (with_volume (Some vol));;
  hide_progress;;
  sh ← volume_shape;
  _add_to_history (LogVolumeLoaded sh);;
  modify (with_current_slice (sh.1.1 // 2));;
  _refresh_view;;
  transition_to VOLUME_LOADED;;
  message_box InfoVolumeLoaded.

(** [_on_load_error(error_msg)] *)
Definition _on_load_error (error_msg : string) : M unit :=
  hide_progress;;
  message_box (CritLoadFailed error_msg);;
  _add_to_history (LogLoadError error_msg).

(** [_on_slice_changed(value)] *)
Definition _on_slice_changed (value : Z) : M unit :=
  modify (with_current_slice value);;
  _refresh_view.

(** [_roi1_callback(coords)] *)
Definition _roi1_callback (coords : Z * Z * Z * Z) : M unit :=
  let '(x_min, x_max, y_min, y_max) := coords in
  z ← gets current_slice;
  modify (λ s, with_roi_manager (set_roi1 z x_min x_max y_min y_max (roi_manager s)) s);;
  _add_to_history (LogRoi1 (z, y_min, y_max, x_min, x_max));;
  _refresh_view.

(** The rectangle [_roi2_callback] computes from ROI1, the drawn rectangle
    and the shape of the volume (the arithmetic between unpacking
    [roi1_3d] and the call of [set_roi2]); the result is
    [(x_min, x_max, y_min, y_max)]. *)
Definition roi2_adjust (roi1 : ROI5) (sh : Z * Z * Z) (coords : Z * Z * Z * Z)
    : Z * Z * Z * Z :=
  let '(x_min, x_max, y_min, y_max) := coords in
  let '(_, roi1_y0, roi1_y1, roi1_x0, roi1_x1) := roi1 in
  let roi1_width := roi1_x1 - roi1_x0 in
  let roi1_height := roi1_y1 - roi1_y0 in
  let center_x := (x_min + x_max) // 2 in
  let center_y := (y_min + y_max) // 2 in
  let x_min := Z.max 0 (center_x - roi1_width // 2) in
  let x_max := Z.min (sh.2 - 1) (x_min + roi1_width) in
  let y_min := Z.max 0 (center_y - roi1_height // 2) in
  let y_max := Z.min (sh.1.2 - 1) (y_min + roi1_height) in
  (x_min, x_max, y_min, y_max).

(** [_roi2_callback(coords)] *)
Definition _roi2_callback (coords : Z * Z * Z * Z) : M unit :=
  rm ← gets roi_manager;
  roi1 ← unpack TypeError (roi1_3d rm);
  sh ← volume_shape;
  let '(x_min, x_max, y_min, y_max) := roi2_adjust roi1 sh coords in
  z ← gets current_slice;
  rm' ← unpack PreconditionError (set_roi2 z x_min x_max y_min y_max rm);
  modify (with_roi_manager rm');;
  _add_to_history (LogRoi2 (z, y_min, y_max, x_min, x_max));;
  transition_to ROI_DEFINED;;
  _refresh_view.

(** [_reset_roi()] *)
Definition _reset_roi : M unit :=
  modify (λ s, with_roi_manager (roi_reset (roi_manager s)) s);;
  transition_to VOLUME_LOADED;;
  _refresh_view;;
  _add_to_history LogRoiReset.

(** [_segment_roi()] *)
Definition _segment_roi : M unit :=
  rm ← gets roi_manager;
  if negb (has_both_rois rm) then message_box WarnDrawBothRois
  else
    sh ← volume_shape;
    match get_combined_roi_coords rm sh with
    | None => message_box WarnCombinedRoi
    | Some roi_coords =>
        name ← gets (λ s, model_combo (widgets s));
        use_cpu ← gets (λ s, cpu_checkbox (widgets s));
        match get_model_instance name use_cpu with
        | None => message_box (CritModelNotLoaded name)
        | Some model_instance =>
            _add_to_history (LogSegmentationStart name roi_coords);;
            transition_to SEGMENTING;;
            modify_widgets (with_progress_bar
              {| pb_visible := true; pb_range := (0, 100); pb_value := 0 |});;
            vol ← gets volume;
            modify (λ s, with_started
              (started s ++ [SegmentationWorker model_instance vol roi_coords]) s)
        end
    end.

(** [_on_segmentation_progress(percentage, message)] *)
Definition _on_segmentation_progress (percentage : Z) (message : string) : M unit :=
  modify_widgets (λ w,
    with_progress_message message
      (with_progress_bar {| pb_visible := pb_visible (progress_bar w);
                            pb_range := pb_range (progress_bar w);
                            pb_value := percentage |} w)).

(** [mask.copy()] in a handler *)
Definition copy_array (l : loc) : M loc := λ s,
  match nd_copy l (heap s) with
  | Some (l', h') => Return l' (with_heap h' s)
  | None => Raise DanglingReference s
  end.

(** [_on_segmentation_finished(mask, stats)]; the statistics label shows the
    organ and numbers derived from [mask] and [stats], kept here as the pair
    of the organ and [stats]. *)
Definition _on_segmentation_finished (mask : loc) (stats : Stats) : M unit :=
  let organ_key := default "unknown" (st_organ_key stats) in
  b ← copy_array mask;
  modify (λ s, with_base_masks (<[organ_key := b]> (base_masks s)) s);;
  c ← copy_array mask;
  modify (λ s, with_masks (<[organ_key := c]> (masks s)) s);;
  modify_widgets (λ w,
    with_organ_combo
      (setCurrentText organ_key
         (if bool_decide (organ_key ∈ items (organ_combo w)) then organ_combo w
          else addItem organ_key (organ_combo w))) w);;
  now ← gets clock;
  modify (λ s, with_operation_history
    (operation_history s ++
       [{| op_timestamp := default now (st_timestamp stats);
           op_type := segmentation; op_organ := organ_key; op_stats := stats |}]) s);;
  hide_progress;;
  modify_widgets (with_label_mask_stats (Some (organ_key, stats)));;
  _add_to_history (LogSegmentationDone organ_key);;
  transition_to MASK_READY;;
  _refresh_view;;
  message_box (InfoSegmentationReady organ_key).

(** [_on_segmentation_error(error_msg)] *)
Definition _on_segmentation_error (error_msg : string) : M unit :=
  hide_progress;;
  transition_to ROI_DEFINED;;
  message_box (CritError error_msg);;
  _add_to_history (LogSegmentationError error_msg).

(** [_apply_mask_refinement()] *)
Definition _apply_mask_refinement : M unit :=
  organ_key ← gets (λ s, currentText (organ_combo (widgets s)));
  bm ← gets base_masks;
  match bm !! organ_key with
  | None => message_box WarnSegmentFirst
  | Some base =>
      params ← gets (λ s, sliders (widgets s));
      _add_to_history (LogRefinementStart organ_key params);;
      transition_to REFINING;;
      modify_widgets (λ w, with_progress_bar
        {| pb_visible := true; pb_range := (0, 100);
           pb_value := pb_value (progress_bar w) |} w);;
      vol ← gets volume;
      modify (λ s, with_started
        (started s ++ [MaskRefinementWorker base vol params organ_key]) s)
  end.

(** [_on_refinement_finished(mask, stats)]; building the statistics label
    subscripts [stats] at ['base_count'], ['final_count'] and ['volume_ml']
    and raises [KeyError] when one is absent. *)
Definition _on_refinement_finished (mask : loc) (stats : Stats) : M unit :=
  current ← gets (λ s, currentText (organ_combo (widgets s)));
  let organ_key := default current (st_organ_key stats) in
  modify (λ s, with_masks (<[organ_key := mask]> (masks s)) s);;
  now ← gets clock;
  modify (λ s, with_operation_history
    (operation_history s ++
       [{| op_timestamp := default now (st_timestamp stats);
           op_type := refinement; op_organ := organ_key; op_stats := stats |}]) s);;
  hide_progress;;
  _ ← unpack (KeyError "base_count") (st_base_count stats);
  _ ← unpack (KeyError "final_count") (st_final_count stats);
  _ ← unpack (KeyError "volume_ml") (st_volume_ml stats);
  modify_widgets (with_label_mask_stats (Some (organ_key, stats)));;
  _add_to_history (LogRefinementDone organ_key);;
  transition_to MASK_READY;;
  _refresh_view.

(** [_on_refinement_error(error_msg)] *)
Definition _on_refinement_error (error_msg : string) : M unit :=
  hide_progress;;
  transition_to MASK_READY;;
  message_box (CritError error_msg);;
  _add_to_history (LogRefinementError error_msg).

(** [_reset_to_base_mask()] *)
Definition _reset_to_base_mask : M unit :=
  organ_key ← gets (λ s, currentText (organ_combo (widgets s)));
  bm ← gets base_masks;
  match bm !! organ_key with
  | Some base =>
      c ← copy_array base;
      modify (λ s, with_masks (<[organ_key := c]> (masks s)) s);;
      _add_to_history (LogResetToBase organ_key);;
      _refresh_view
  | None => mret tt
  end.

End Handlers.

(** ** Events of the coordinating thread *)

(** What the Qt event loop delivers to the window: operator actions and the
    signals of the workers, and, between two handlers, an array object
    created by the loader or by a worker. *)
Inductive Event :=
  | Allocated (a : ndarray)
  | LoadDicom (folder : string)
  | LoadFinished (vol : loc)
  | LoadError (error_msg : string)
  | SliceChanged (value : Z)
  | Roi1Drawn (coords : Z * Z * Z * Z)
  | Roi2Drawn (coords : Z * Z * Z * Z)
  | ResetRoi
  | SegmentRoi
  | SegmentationProgress (percentage : Z) (message : string)
  | SegmentationFinished (mask : loc) (stats : Stats)
  | SegmentationError (error_msg : string)
  | ApplyMaskRefinement
  | RefinementFinished (mask : loc) (stats : Stats)
  | RefinementError (error_msg : string)
  | ResetToBaseMask.

Section EventLoop.
Context `{Core}.

Definition handle (e : Event) : M unit :=
  match e with
  | Allocated a => modify (λ s, with_heap (heap s ++ [a]) s)
  | LoadDicom folder => _load_dicom folder
  | LoadFinished vol => _on_load_finished vol
  | LoadError msg => _on_load_error msg
  | SliceChanged value => _on_slice_changed value
  | Roi1Drawn coords => _roi1_callback coords
  | Roi2Drawn coords => _roi2_callback coords
  | ResetRoi => _reset_roi
  | SegmentRoi => _segment_roi
  | SegmentationProgress p m => _on_segmentation_progress p m
  | SegmentationFinished mask stats => _on_segmentation_finished mask stats
  | SegmentationError msg => _on_segmentation_error msg
  | ApplyMaskRefinement => _apply_mask_refinement
  | RefinementFinished mask stats => _on_refinement_finished mask stats
  | RefinementError msg => _on_refinement_error msg
  | ResetToBaseMask => _reset_to_base_mask
  end.

(** The events handled one after the other; an exception that leaves a
    handler ends the run. *)
Fixpoint run (es : list Event) : M unit :=
  match es with
  | [] => mret tt
  | e :: es => handle e;; run es
  end.

(** The state after each event of a list, whether its handler returned or
    raised. *)
Definition after (es : list Event) (s : App) : App :=
  foldl (λ s e, outcome_state (handle e s)) s es.

End EventLoop.


(** A job is in flight, as the state machine sees it. *)
Definition busy (s : App) : Prop :=
  ui_state s = SEGMENTING ∨ ui_state s = REFINING.

(** The window right after construction, with the slider defaults of the
    built-in configuration. *)
Definition initial_widgets (models : list string) : Widgets :=
  {| organ_combo := {| items := []; currentText := EmptyString |};
     model_combo := default EmptyString (head models);
     cpu_checkbox := false;
     sliders := {| hu_min := -1000; hu_max := -300; dilation_iter := 2;
                   closing_size := 3; fill_holes := true |};
     progress_bar := {| pb_visible := false; pb_range := (0, 100); pb_value := 0 |};
     progress_message := EmptyString;
     label_mask_stats := None;
     history_text := [];
     dialogs := [] |}.

Definition initial_app (models : list string) (now : Z) : App :=
  {| volume := None; heap := []; masks := ∅; base_masks := ∅;
     roi_manager := {| roi1_3d := None; roi2_3d := None |};
     current_slice := 0; ui_state := INITIAL; operation_history := [];
     widgets := initial_widgets models; clock := now; started := [] |}.

(** The mask an organ key stands for: the contents of the array its entry
    refers to. *)
Definition mask_of (d : gmap string loc) (h : store) (k : string) : option ndarray :=
  l ← d !! k; h !! l.

Definition base_mask (s : App) (k : string) : option ndarray :=
  mask_of (base_masks s) (heap s) k.

Definition current_mask (s : App) (k : string) : option ndarray :=
  mask_of (masks s) (heap s) k.


(** The mask store and the operation history, which a failed job must leave
    alone. *)
Definition same_masks_and_history (s s' : App) : Prop :=
  base_masks s' = base_masks s ∧ masks s' = masks s ∧ heap s' = heap s
  ∧ operation_history s' = operation_history s.

(** ** Invariants of the mask store and of the organ selector *)

(** The organ selector lists exactly the organs that have a base mask, each
    of them once, and unless it is empty its current text is one of its
    items. *)
Definition organs_listed (s : App) : Prop :=
  NoDup (items (organ_combo (widgets s)))
  ∧ (∀ k, k ∈ items (organ_combo (widgets s)) ↔ is_Some (base_masks s !! k))
  ∧ (items (organ_combo (widgets s)) = []
     ∨ currentText (organ_combo (widgets s)) ∈ items (organ_combo (widgets s))).

(** Every organ with a base mask has a current mask. *)
Definition base_has_current (s : App) : Prop :=
  ∀ k, is_Some (base_masks s !! k) → is_Some (masks s !! k).

(** The state after one more message box. *)
Definition shown (d : Dialog) (s : App) : App :=
  with_widgets (with_dialogs (dialogs (widgets s) ++ [d]) (widgets s)) s.

(** ** Configuration loading and start-up *)

(** A YAML document as [yaml.safe_load] returns it. *)
#[warnings="-register-all"]
Inductive Yaml :=
  | YNull
  | YBool (b : bool)
  | YInt (z : Z)
  | YStr (s : string)
  | YList (l : list Yaml)
  | YDict (d : list (string * Yaml)).

(** What [open(config_path)] and [yaml.safe_load] make of the configuration
    file: no such file ([FileNotFoundError]), a text that is not YAML
    ([yaml.YAMLError]), or a document. *)
Inductive ConfigFile :=
  | FileMissing
  | Unparseable (text : string)
  | Parsed (doc : Yaml).

(** [_get_default_config()] *)
Definition _get_default_config : Yaml :=
  YDict [
    ("application", YDict [
       ("window_title", YStr "Lung Segmenter GUI");
       ("window_size", YList [YInt 1600; YInt 900])]);
    ("display", YDict [
       ("default_window_center", YInt (-600));
       ("default_window_width", YInt 1500);
       ("auto_window_enabled", YBool true);
       ("presets", YDict [
          ("lung", YDict [("center", YInt (-600)); ("width", YInt 1500)]);
          ("mediastinum", YDict [("center", YInt 40); ("width", YInt 400)])])]);
    ("organ_colors", YDict [
       ("lung", YStr "lime"); ("liver", YStr "orange");
       ("kidney", YStr "cyan"); ("default", YStr "red")]);
    ("ui", YDict [
       ("panels", YDict [("control_panel_width", YInt 300);
                         ("refine_panel_width", YInt 350)]);
       ("modes", YDict [("simplified", YBool true)]);
       ("animation", YDict [("duration_ms", YInt 250);
                            ("easing", YStr "InOutCubic")])]);
    ("processing", YDict [
       ("presets", YDict [
          ("conservative", YDict [
             ("hu_min", YInt (-950)); ("hu_max", YInt (-350));
             ("dilation_iter", YInt 1); ("closing_size", YInt 3);
             ("fill_holes", YBool true)]);
          ("balanced", YDict [
             ("hu_min", YInt (-1000)); ("hu_max", YInt (-300));
             ("dilation_iter", YInt 2); ("closing_size", YInt 3);
             ("fill_holes", YBool true)]);
          ("aggressive", YDict [
             ("hu_min", YInt (-1100)); ("hu_max", YInt (-250));
             ("dilation_iter", YInt 4); ("closing_size", YInt 5);
             ("fill_holes", YBool true)])]);
       ("parameter_ranges", YDict [
          ("hu_min", YDict [("min", YInt (-1200)); ("max", YInt (-100));
                            ("default", YInt (-1000))]);
          ("hu_max", YDict [("min", YInt (-900)); ("max", YInt 100);
                            ("default", YInt (-300))]);
          ("dilation_iter", YDict [("min", YInt 0); ("max", YInt 10);
                                   ("default", YInt 2)]);
          ("closing_size", YDict [("min", YInt 1); ("max", YInt 10);
                                  ("default", YInt 3)])])])
  ].

(** The result of a start-up step: the message boxes shown, and the value
    or the exception that leaves it. *)
Definition Startup (A : Type) : Type := list Dialog * (Exn + A).

(** [_load_config(config_path)]: only [FileNotFoundError] is caught. *)
Definition _load_config (config_path : string) (f : ConfigFile) : Startup Yaml :=
  match f with
  | Parsed doc => ([], inr doc)
  | Unparseable _ => ([], inl YAMLError)
  | FileMissing => ([WarnConfigNotFound config_path], inr _get_default_config)
  end.

(** [d[key]] on a loaded document: [KeyError] for a dictionary without the
    key, [TypeError] for a value that is not subscriptable by a string. *)
Definition subscript (key : string) (d : Yaml) : Exn + Yaml :=
  match d with
  | YDict l =>
      match list_find (λ kv, kv.1 = key) l with
      | Some (_, (_, v)) => inr v
      | None => inl (KeyError key)
      end
  | _ => inl TypeError
  end.

Definition subscript2 (k1 k2 : string) (d : Yaml) : Exn + Yaml :=
  match subscript k1 d with
  | inr v => subscript k2 v
  | inl e => inl e
  end.

(** The display attributes [__init__] reads from the configuration. *)
Record DisplayDefaults := {
  window_center : Yaml;
  window_width : Yaml;
  auto_window : Yaml
}.

Section Startup.

(** The rest of [__init__] (model registry, widgets, state manager, welcome
    message), whose collaborators are not among the sources: it returns or
    raises. *)
Variable build_window : Yaml → DisplayDefaults → option Exn.

(** The exit code of [app.exec_()]. *)
Variable exec_code : Z.

(** [LungSegmenterGUI.__init__(config_path)] *)
Definition __init__ (config_path : string) (f : ConfigFile) : Startup unit :=
  match _load_config config_path f with
  | (shown, inl e) => (shown, inl e)
  | (shown, inr config) =>
      match subscript2 "display" "default_window_center" config,
            subscript2 "display" "default_window_width" config,
            subscript2 "display" "auto_window_enabled" config with
      | inr wc, inr ww, inr aw =>
          match build_window config
                  {| window_center := wc; window_width := ww; auto_window := aw |} with
          | None => (shown, inr tt)
          | Some e => (shown, inl e)
          end
      | inl e, _, _ | inr _, inl e, _ | inr _, inr _, inl e => (shown, inl e)
      end
  end.

(** What [main] leaves behind: the message boxes, whether
    [[FATAL ERROR]] was printed, and the return code. *)
Record MainResult := {
  main_dialogs : list Dialog;
  main_fatal : option Exn;
  main_code : Z
}.

(** [main()] of main.py, on the configuration file found at start-up. *)
Definition main (config_path : string) (f : ConfigFile) : MainResult :=
  match __init__ config_path f with
  | (shown, inr _) =>
      {| main_dialogs := shown; main_fatal := None; main_code := exec_code |}
  | (shown, inl e) =>
      {| main_dialogs := shown; main_fatal := Some e; main_code := 1 |}
  end.

End Startup.

(** ** The panels of the window *)





(** ** The projections *)

(** A two-dimensional array, as a slice of the volume is. *)
Record ndarray2 := { shape2 : Z * Z; data2 : list (list Z) }.

(** [sl[i, j]] for indices inside the slice *)
Definition nd2_get (sl : ndarray2) (i j : nat) : option Z :=
  row ← data2 sl !! i; row !! j.

(** An integer index [i] on an axis of length [n]: negative indices count
    from the end, and an index outside [-n, n - 1] is an [IndexError]
    ([None] here). *)
Definition np_index (n i : Z) : option nat :=
  if bool_decide (- n ≤ i < n)
  then Some (Z.to_nat (if i <? 0 then i + n else i))
  else None.

(** [a[i, :, :]], [a[:, i, :]] and [a[:, :, i]]. *)
Definition nd_axis0 (a : ndarray) (i : Z) : option ndarray2 :=
  let '(nz, ny, nx) := shape a in
  idx ← np_index nz i;
  plane ← data a !! idx;
  Some {| shape2 := (ny, nx); data2 := plane |}.

Definition nd_axis1 (a : ndarray) (i : Z) : option ndarray2 :=
  let '(nz, ny, nx) := shape a in
  idx ← np_index ny i;
  rows ← mapM (λ plane : list (list Z), plane !! idx) (data a);
  Some {| shape2 := (nz, nx); data2 := rows |}.

Definition nd_axis2 (a : ndarray) (i : Z) : option ndarray2 :=
  let '(nz, ny, nx) := shape a in
  idx ← np_index nx i;
  planes ← mapM (λ plane : list (list Z),
                   mapM (λ row : list Z, row !! idx) plane) (data a);
  Some {| shape2 := (nz, ny); data2 := planes |}.

(** [_get_slice_data()] and [_get_mask_slice(mask)], on the array, the
    projection and the slice number; [None] is the [IndexError] of numpy. *)
Definition _get_slice_data (current_view : string) (current_slice : Z)
    (volume : ndarray) : option ndarray2 :=
  if bool_decide (current_view = "axial") then nd_axis0 volume current_slice
  else if bool_decide (current_view = "coronal") then nd_axis1 volume current_slice
  else nd_axis2 volume current_slice.

Definition _get_mask_slice (current_view : string) (current_slice : Z)
    (mask : ndarray) : option ndarray2 :=
  if bool_decide (current_view = "axial") then nd_axis0 mask current_slice
  else if bool_decide (current_view = "coronal") then nd_axis1 mask current_slice
  else nd_axis2 mask current_slice.

(** [_get_max_slice()], on the shape of the volume. *)
Definition _get_max_slice (current_view : string) (sh : Z * Z * Z) : Z :=
  if bool_decide (current_view = "axial") then sh.1.1 - 1
  else if bool_decide (current_view = "coronal") then sh.1.2 - 1
  else sh.2 - 1.







(** ** Example states *)

(** The example sessions are run with [ungated_core], the state manager that
    lets every transition the window asks for pass. *)

(** A volume of shape (100, 512, 512), loaded; ROI1 drawn on slice 40 with
    x = [100, 400], y = [100, 400]; the operator now at slice 60. *)
Definition example_events : list Event :=
  [LoadDicom "study"; Allocated (zeros 100 512 512); LoadFinished 0%nat;
   SliceChanged 40; Roi1Drawn (100, 400, 100, 400); SliceChanged 60].

Definition example_roi1_app : App :=
  outcome_state (run (H := ungated_core) example_events (initial_app ["lungmask"] 0)).

(** Statistics of a finished segmentation and of a finished refinement of
    the lung. *)
Definition example_seg_stats : Stats :=
  {| st_organ_key := Some "lung"; st_timestamp := Some 17; st_elapsed_time := Some 3;
     st_base_count := None; st_final_count := None;
     st_improvement_percent := None; st_volume_ml := None |}.

Definition example_ref_stats : Stats :=
  {| st_organ_key := Some "lung"; st_timestamp := Some 23; st_elapsed_time := None;
     st_base_count := Some 8; st_final_count := Some 6;
     st_improvement_percent := Some (-25); st_volume_ml := Some 1 |}.

(** A small volume, a mask for it and a refined mask. *)
Definition small_volume : ndarray :=
  {| shape := (2, 3, 4);
     data := [[[0; 1; 2; 3]; [10; 11; 12; 13]; [20; 21; 22; 23]];
              [[100; 101; 102; 103]; [110; 111; 112; 113]; [120; 121; 122; 123]]] |}.

Definition small_mask : ndarray :=
  {| shape := (2, 3, 4);
     data := [[[0; 1; 1; 0]; [0; 1; 1; 0]; [0; 0; 0; 0]];
              [[0; 0; 1; 0]; [0; 1; 1; 0]; [0; 0; 0; 0]]] |}.


(** A session on the small volume in which a segmentation is in flight and
    the worker has created its result (at location 1). *)
Definition small_events : list Event :=
  [LoadDicom "study"; Allocated small_volume; LoadFinished 0%nat; SliceChanged 0;
   Roi1Drawn (0, 2, 0, 1); SliceChanged 1; Roi2Drawn (1, 3, 1, 2);
   SegmentRoi; Allocated small_mask].

Definition small_segmenting_app : App :=
  outcome_state (run (H := ungated_core) small_events (initial_app ["lungmask"] 0)).

(** The same session once the segmentation has succeeded and a refinement
    of the lung is in flight. *)
Definition small_refining_app : App :=
  outcome_state
    (run (H := ungated_core)
       [SegmentationFinished 1%nat example_seg_stats; ApplyMaskRefinement]
       small_segmenting_app).

(** * Properties *)

(** ** Tactics and basic facts *)

(** Unfolds the monad so that a handler applied to a state computes. *)
Ltac exec :=
  lazy beta iota zeta delta
    [_load_dicom _on_load_finished _on_load_error _on_slice_changed
     _roi1_callback _roi2_callback _reset_roi _segment_roi
     _on_segmentation_progress
     _on_segmentation_finished _on_segmentation_error _apply_mask_refinement
     _on_refinement_finished _on_refinement_error _reset_to_base_mask
     volume_shape hide_progress _add_to_history message_box _refresh_view
     transition_to copy_array modify_widgets modify gets unpack
     mbind mret mthrow M_bind M_ret M_throw outcome_state raised] in *.

(** ** The store *)

Lemma nd_copy_Some (l : loc) (h : store) (a : ndarray) :
  h !! l = Some a → nd_copy l h = Some (length h, h ++ [a]).
Proof. intros Hl. unfold nd_copy, alloc. rewrite Hl. reflexivity. Qed.

Lemma nd_copy_inv (l l' : loc) (h h' : store) :
  nd_copy l h = Some (l', h') →
  ∃ a, h !! l = Some a ∧ l' = length h ∧ h' = h ++ [a].
Proof.
  unfold nd_copy, alloc. destruct (h !! l) as [a|] eqn:Hl; cbn; [|done].
  intros [= <- <-]. eauto.
Qed.

(** A new object does not disturb the ones that exist. *)
Lemma lookup_alloc_old (h : store) (a b : ndarray) (l : loc) :
  h !! l = Some a → (h ++ [b]) !! l = Some a.
Proof. intros Hl. by apply lookup_app_l_Some. Qed.

Lemma lookup_alloc_new (h : store) (b : ndarray) :
  (h ++ [b]) !! length h = Some b.
Proof.
  rewrite lookup_app_r by lia.
  by replace (length h - length h)%nat with 0%nat by lia.
Qed.


Lemma floordiv_2_bounds (a : Z) : 2 * (a // 2) ≤ a < 2 * (a // 2) + 2.
Proof.
  unfold floordiv.
  pose proof (Z.mod_pos_bound a 2). pose proof (Z.div_mod a 2). lia.
Qed.


Section RoiFacts.
Context `{Core}.

(** What [_roi2_callback] records when ROI1 is set and a volume is loaded:
    the rectangle of [roi2_adjust], on the current slice, whether or not the
    state manager accepts the transition that follows. *)
Lemma roi2_callback_records (s : App) (coords : Z * Z * Z * Z) (roi1 : ROI5)
    (v : loc) (a : ndarray) :
  roi1_3d (roi_manager s) = Some roi1 →
  volume s = Some v →
  heap s !! v = Some a →
  let '(x0, x1, y0, y1) := roi2_adjust roi1 (shape a) coords in
  roi2_3d (roi_manager (outcome_state (_roi2_callback coords s)))
    = Some (current_slice s, y0, y1, x0, x1)
  ∧ (allowed (ui_state s) ROI_DEFINED = true →
     raised (_roi2_callback coords s) = None).
Proof.
  intros Hr1 Hv Ha.
  destruct (roi2_adjust roi1 (shape a) coords) as [[[x0 x1] y0] y1] eqn:Hadj.
  exec. rewrite Hr1. cbn. rewrite Hv. cbn. rewrite Ha. cbn.
  rewrite Hadj. unfold set_roi2. rewrite Hr1. cbn.
  destruct (allowed (ui_state s) ROI_DEFINED); cbn; split; try done.
Qed.

(** The same with the arithmetic of [roi2_adjust] spelled out. *)
Lemma roi2_callback_rectangle (s : App)
    (z1 y10 y11 x10 x11 xmin xmax ymin ymax nz ny nx : Z) (v : loc) (a : ndarray) :
  roi1_3d (roi_manager s) = Some (z1, y10, y11, x10, x11) →
  volume s = Some v →
  heap s !! v = Some a →
  shape a = (nz, ny, nx) →
  ∃ x0 x1 y0 y1,
    roi2_3d (roi_manager (outcome_state (_roi2_callback (xmin, xmax, ymin, ymax) s)))
      = Some (current_slice s, y0, y1, x0, x1)
    ∧ x0 = Z.max 0 ((xmin + xmax) // 2 - (x11 - x10) // 2)
    ∧ x1 = Z.min (nx - 1) (x0 + (x11 - x10))
    ∧ y0 = Z.max 0 ((ymin + ymax) // 2 - (y11 - y10) // 2)
    ∧ y1 = Z.min (ny - 1) (y0 + (y11 - y10)).
Proof.
  intros Hr1 Hv Ha Hsh.
  pose proof (roi2_callback_records s (xmin, xmax, ymin, ymax) _ _ _ Hr1 Hv Ha) as Hrec.
  rewrite Hsh in Hrec. cbn in Hrec. destruct Hrec as [Hrec _].
  eexists _, _, _, _. split; [exact Hrec|]. done.
Qed.

End RoiFacts.

(** ** The second annotation (claims C4 and C9) *)

Section Roi2.
Context `{Core}.


(** C9.  When ROI1 is a proper rectangle that fits into the slice and the
    centroid of the drawn rectangle lies inside the slice on both axes, the
    recorded rectangle satisfies [0 ≤ x_min ≤ x_max ≤ X - 1] and
    [0 ≤ y_min ≤ y_max ≤ Y - 1].  Without the condition on the centroid this
    fails: on the volume (100, 512, 512) with ROI1 x = [100, 400], a
    rectangle drawn around x = 700 is recorded as x = [550, 511], and the
    callback returns without an exception. *)
Theorem roi2_rectangle_in_bounds :
  (∀ (s : App) (z1 y10 y11 x10 x11 xmin xmax ymin ymax nz ny nx : Z)
     (v : loc) (a : ndarray),
     roi1_3d (roi_manager s) = Some (z1, y10, y11, x10, x11) →
     volume s = Some v →
     heap s !! v = Some a →
     shape a = (nz, ny, nx) →
     0 ≤ x11 - x10 ≤ nx - 1 →
     0 ≤ y11 - y10 ≤ ny - 1 →
     0 ≤ (xmin + xmax) // 2 ≤ nx - 1 →
     0 ≤ (ymin + ymax) // 2 ≤ ny - 1 →
     ∃ x0 x1 y0 y1,
       roi2_3d (roi_manager (outcome_state (_roi2_callback (xmin, xmax, ymin, ymax) s)))
         = Some (current_slice s, y0, y1, x0, x1)
       ∧ 0 ≤ x0 ≤ x1 ∧ x1 ≤ nx - 1 ∧ 0 ≤ y0 ≤ y1 ∧ y1 ≤ ny - 1)
  ∧ (let o := _roi2_callback (H := spec_core) (690, 710, 290, 310) example_roi1_app in
     (690 + 710) // 2 = 700 ∧ 700 > 512 - 1
     ∧ raised o = None
     ∧ roi2_3d (roi_manager (outcome_state o)) = Some (60, 150, 450, 550, 511)
     ∧ 550 > 511).
Proof.
  split.
  - intros s z1 y10 y11 x10 x11 xmin xmax ymin ymax nz ny nx v a
      Hr1 Hv Ha Hsh Hw Hh Hcx Hcy.
    destruct (roi2_callback_rectangle s z1 y10 y11 x10 x11 xmin xmax ymin ymax
                nz ny nx v a Hr1 Hv Ha Hsh)
      as (x0 & x1 & y0 & y1 & Hrec & Hx0 & Hx1 & Hy0 & Hy1).
    exists x0, x1, y0, y1. split; [exact Hrec|].
    pose proof (floordiv_2_bounds (x11 - x10)).
    pose proof (floordiv_2_bounds (y11 - y10)).
    lia.
  - cbn zeta. repeat split; try reflexivity; lia.
Qed.

End Roi2.


(** A rectangle drawn around (256, 200) in the same session stays inside the
    slice. *)
Lemma roi2_rectangle_in_bounds_witness :
  ∃ x0 x1 y0 y1,
    roi2_3d (roi_manager (outcome_state
      (_roi2_callback (H := spec_core) (250, 262, 190, 210) example_roi1_app)))
    = Some (60, y0, y1, x0, x1)
    ∧ 0 ≤ x0 ≤ x1 ∧ x1 ≤ 512 - 1 ∧ 0 ≤ y0 ≤ y1 ∧ y1 ≤ 512 - 1.
Proof.
  apply (proj1 (roi2_rectangle_in_bounds (H := spec_core)) example_roi1_app
           40 100 400 100 400 250 262 190 210 100 512 512 0%nat
           (zeros 100 512 512));
    first [reflexivity | lia | (split; apply Z.leb_le; vm_compute; reflexivity)].
Defined.


(** ** Dispatch while a job is in flight (claim C1) *)

Section Dispatch.
Context `{Core}.

(** With the transition table of the specification, no dispatch transition
    leaves a busy state. *)
Lemma spec_allowed_busy (s : App) :
  busy s →
  spec_allowed (ui_state s) SEGMENTING = false
  ∧ spec_allowed (ui_state s) REFINING = false.
Proof. intros [-> | ->]; done. Qed.

Lemma segment_roi_never_busy_error (s : App) :
  raised (_segment_roi s) ≠ Some BusyError.
Proof. exec. repeat (case_match; simplify_eq/=); discriminate. Qed.

Lemma apply_mask_refinement_never_busy_error (s : App) :
  raised (_apply_mask_refinement s) ≠ Some BusyError.
Proof. exec. repeat (case_match; simplify_eq/=); discriminate. Qed.

(** C1, as the code has it.  The dispatch handlers have no reentrancy guard
    of their own and never raise [BusyError]; in every state, busy or not,
    what happens to a dispatch whose own preconditions hold is decided by
    the state manager alone.  If it refuses the transition to [SEGMENTING]
    (to [REFINING]), the handler fails with [IllegalTransitionError], starts
    no worker and leaves state, masks, store and operation history as they
    were; if it accepts, a worker is started. *)
Theorem dispatch_guarded_by_state_manager_only (s : App) :
  raised (_segment_roi s) ≠ Some BusyError
  ∧ raised (_apply_mask_refinement s) ≠ Some BusyError
  ∧ (∀ (v : loc) (a : ndarray) (roi : ROI6) (m : ModelInstance),
       has_both_rois (roi_manager s) = true →
       volume s = Some v →
       heap s !! v = Some a →
       get_combined_roi_coords (roi_manager s) (shape a) = Some roi →
       get_model_instance (model_combo (widgets s)) (cpu_checkbox (widgets s)) = Some m →
       ∃ s',
         (if allowed (ui_state s) SEGMENTING
          then _segment_roi s = Return tt s'
               ∧ ui_state s' = SEGMENTING
               ∧ started s' = started s ++ [SegmentationWorker m (Some v) roi]
          else _segment_roi s = Raise IllegalTransitionError s'
               ∧ ui_state s' = ui_state s
               ∧ started s' = started s)
         ∧ masks s' = masks s ∧ base_masks s' = base_masks s
         ∧ heap s' = heap s ∧ operation_history s' = operation_history s)
  ∧ (∀ (base : loc),
       base_masks s !! currentText (organ_combo (widgets s)) = Some base →
       ∃ s',
         (if allowed (ui_state s) REFINING
          then _apply_mask_refinement s = Return tt s'
               ∧ ui_state s' = REFINING
               ∧ started s' = started s ++
                   [MaskRefinementWorker base (volume s) (sliders (widgets s))
                      (currentText (organ_combo (widgets s)))]
          else _apply_mask_refinement s = Raise IllegalTransitionError s'
               ∧ ui_state s' = ui_state s
               ∧ started s' = started s)
         ∧ masks s' = masks s ∧ base_masks s' = base_masks s
         ∧ heap s' = heap s ∧ operation_history s' = operation_history s).
Proof.
  split; [apply segment_roi_never_busy_error|].
  split; [apply apply_mask_refinement_never_busy_error|].
  split.
  - intros v a roi m Hboth Hv Ha Hroi Hm. exec.
    rewrite Hboth. cbn. rewrite Hv. cbn. rewrite Ha. cbn. rewrite Hroi, Hm. cbn.
    destruct (allowed (ui_state s) SEGMENTING); cbn;
      eexists; (split; [split; [reflexivity|]|]); cbn; rewrite ?Hv; done.
  - intros base Hbase. exec. rewrite Hbase. cbn.
    destruct (allowed (ui_state s) REFINING); cbn;
      eexists; (split; [split; [reflexivity|]|]); cbn; done.
Qed.

End Dispatch.

(** In the session on the small volume a segmentation is in flight; with the
    transition table of the specification a second dispatch is refused by
    the state manager and starts nothing. *)
Lemma dispatch_guarded_by_state_manager_only_witness :
  ∃ s', _segment_roi (H := spec_core) small_segmenting_app
          = Raise IllegalTransitionError s'
        ∧ started s' = started small_segmenting_app.
Proof.
  destruct (proj1 (proj2 (proj2
              (dispatch_guarded_by_state_manager_only (H := spec_core)
                 small_segmenting_app)))
              0%nat small_volume (0, 1, 1, 2, 1, 3)
              {| model_name := "lungmask"; model_use_cpu := false |}
              eq_refl eq_refl eq_refl eq_refl eq_refl)
    as (s' & Hd & _).
  exists s'. cbn in Hd. destruct Hd as (Hd & _ & Hst). split; assumption.
Defined.

(** C1, as stated, fails.  The state [small_segmenting_app] is reached from
    the initial window by the events [small_events], and a segmentation is
    in flight there.  With a state manager that lets the transition pass, a
    second [_segment_roi] returns normally and starts a second segmentation
    worker.  With the transition table of the specification it is the state
    manager that refuses, with [IllegalTransitionError]; no [BusyError] is
    raised in either case. *)
Lemma second_dispatch_not_refused_by_handler :
  busy small_segmenting_app
  ∧ started small_segmenting_app
    = [DataLoadWorker "study";
       SegmentationWorker {| model_name := "lungmask"; model_use_cpu := false |}
         (Some 0%nat) (0, 1, 1, 2, 1, 3)]
  ∧ raised (_segment_roi (H := ungated_core) small_segmenting_app) = None
  ∧ started (outcome_state (_segment_roi (H := ungated_core) small_segmenting_app))
    = [DataLoadWorker "study";
       SegmentationWorker {| model_name := "lungmask"; model_use_cpu := false |}
         (Some 0%nat) (0, 1, 1, 2, 1, 3);
       SegmentationWorker {| model_name := "lungmask"; model_use_cpu := false |}
         (Some 0%nat) (0, 1, 1, 2, 1, 3)]
  ∧ raised (_segment_roi (H := spec_core) small_segmenting_app)
    = Some IllegalTransitionError
  ∧ raised (_segment_roi (H := spec_core) small_segmenting_app) ≠ Some BusyError.
Proof.
  split; [left; reflexivity|].
  do 4 (split; [vm_compute; reflexivity|]).
  vm_compute. discriminate.
Qed.

(** ** Failure of a job (claim C2) *)

Section JobErrors.
Context `{Core}.

Lemma same_masks_and_history_masks (s s' : App) (k : string) :
  same_masks_and_history s s' →
  base_mask s' k = base_mask s k ∧ current_mask s' k = current_mask s k.
Proof.
  intros (Hb & Hm & Hh & _). unfold base_mask, current_mask.
  by rewrite Hb, Hm, Hh.
Qed.

(** Dispatching does not touch them. *)
Lemma segment_roi_frame (s : App) :
  same_masks_and_history s (outcome_state (_segment_roi s)).
Proof.
  unfold same_masks_and_history. exec. repeat (case_match; simplify_eq/=); done.
Qed.

Lemma apply_mask_refinement_frame (s : App) :
  same_masks_and_history s (outcome_state (_apply_mask_refinement s)).
Proof.
  unfold same_masks_and_history. exec. repeat (case_match; simplify_eq/=); done.
Qed.

Lemma segmentation_error_frame (s : App) (error_msg : string) :
  same_masks_and_history s (outcome_state (_on_segmentation_error error_msg s)).
Proof.
  unfold same_masks_and_history. exec. repeat (case_match; simplify_eq/=); done.
Qed.

Lemma refinement_error_frame (s : App) (error_msg : string) :
  same_masks_and_history s (outcome_state (_on_refinement_error error_msg s)).
Proof.
  unfold same_masks_and_history. exec. repeat (case_match; simplify_eq/=); done.
Qed.

(** C2.  When a job ends with an error, the handler leaves the base mask
    and the current mask of every organ, the two dictionaries, the store and
    the operation history exactly as they were, also when compared with the
    state before the dispatch; it appends no record; it shows the error;
    and, the state manager accepting the transition, it returns in
    [ROI_DEFINED] after a failed segmentation and in [MASK_READY] after a
    failed refinement. *)
Theorem job_error_keeps_masks_and_history (s : App) (error_msg : string) :
  let o1 := _on_segmentation_error error_msg s in
  let o2 := _on_refinement_error error_msg s in
  same_masks_and_history s (outcome_state o1)
  ∧ same_masks_and_history s (outcome_state o2)
  ∧ (∀ k, base_mask (outcome_state o1) k = base_mask s k
          ∧ current_mask (outcome_state o1) k = current_mask s k)
  ∧ (∀ k, base_mask (outcome_state o2) k = base_mask s k
          ∧ current_mask (outcome_state o2) k = current_mask s k)
  ∧ same_masks_and_history s
      (outcome_state (_on_segmentation_error error_msg (outcome_state (_segment_roi s))))
  ∧ same_masks_and_history s
      (outcome_state
         (_on_refinement_error error_msg (outcome_state (_apply_mask_refinement s))))
  ∧ (allowed (ui_state s) ROI_DEFINED = true →
     ∃ s', o1 = Return tt s' ∧ ui_state s' = ROI_DEFINED
           ∧ dialogs (widgets s') = dialogs (widgets s) ++ [CritError error_msg])
  ∧ (allowed (ui_state s) MASK_READY = true →
     ∃ s', o2 = Return tt s' ∧ ui_state s' = MASK_READY
           ∧ dialogs (widgets s') = dialogs (widgets s) ++ [CritError error_msg]).
Proof.
  cbn zeta.
  pose proof (segmentation_error_frame s error_msg) as Hs.
  pose proof (refinement_error_frame s error_msg) as Hr.
  split; [exact Hs|]. split; [exact Hr|].
  split; [intros k; by apply same_masks_and_history_masks|].
  split; [intros k; by apply same_masks_and_history_masks|].
  split.
  { destruct (segment_roi_frame s) as (Hb & Hm & Hh & Ho).
    destruct (segmentation_error_frame (outcome_state (_segment_roi s)) error_msg)
      as (Hb' & Hm' & Hh' & Ho').
    unfold same_masks_and_history. by rewrite Hb', Hm', Hh', Ho'. }
  split.
  { destruct (apply_mask_refinement_frame s) as (Hb & Hm & Hh & Ho).
    destruct (refinement_error_frame (outcome_state (_apply_mask_refinement s)) error_msg)
      as (Hb' & Hm' & Hh' & Ho').
    unfold same_masks_and_history. by rewrite Hb', Hm', Hh', Ho'. }
  exec. cbn.
  destruct (allowed (ui_state s) ROI_DEFINED), (allowed (ui_state s) MASK_READY);
    cbn; (split; [try done|try done]); intros _; eexists; (split; [reflexivity|]); done.
Qed.

End JobErrors.

(** A segmentation that fails in the session on the small volume brings the
    window back to [ROI_DEFINED]. *)
Lemma job_error_keeps_masks_and_history_witness :
  ∃ s', _on_segmentation_error (H := spec_core) "CUDA out of memory" small_segmenting_app
          = Return tt s'
        ∧ ui_state s' = ROI_DEFINED.
Proof.
  destruct (job_error_keeps_masks_and_history (H := spec_core)
              small_segmenting_app "CUDA out of memory")
    as (_ & _ & _ & _ & _ & _ & Hseg & _).
  destruct (Hseg eq_refl) as (s' & Ho & Hst & _).
  exists s'. split; assumption.
Defined.

(** ** Reset to the base mask without a base mask (claim C7) *)

(** C7, as the code has it.  When the selected organ has no base mask,
    [_reset_to_base_mask] returns normally and changes nothing: there is no
    error, the call is a silent no-op. *)
Theorem reset_without_base_is_noop (s : App) :
  base_masks s !! currentText (organ_combo (widgets s)) = None →
  _reset_to_base_mask s = Return tt s.
Proof. intros Hnone. exec. rewrite Hnone. reflexivity. Qed.

Lemma reset_without_base_is_noop_witness :
  _reset_to_base_mask small_segmenting_app
  = Return tt small_segmenting_app.
Proof.
  apply (reset_without_base_is_noop small_segmenting_app).
  reflexivity.
Defined.

(** C7, as stated, fails: before any segmentation no organ has a base mask,
    and the reset raises nothing. *)
Lemma reset_without_base_raises_nothing :
  base_masks small_segmenting_app
    !! currentText (organ_combo (widgets small_segmenting_app)) = None
  ∧ raised (_reset_to_base_mask small_segmenting_app) = None
  ∧ outcome_state (_reset_to_base_mask small_segmenting_app)
    = small_segmenting_app.
Proof. split; [|split]; vm_compute; reflexivity. Qed.

(** ** Success of a segmentation (claim C3) *)

Section SegmentationFinished.
Context `{Core}.

(** The two dictionaries and the store after [_on_segmentation_finished],
    whether or not the state manager accepts the transition at its end. *)
Lemma segmentation_finished_store (s : App) (mask : loc) (stats : Stats) (a : ndarray) :
  heap s !! mask = Some a →
  let k := default "unknown" (st_organ_key stats) in
  let s' := outcome_state (_on_segmentation_finished mask stats s) in
  base_masks s' = <[k := length (heap s)]> (base_masks s)
  ∧ masks s' = <[k := S (length (heap s))]> (masks s)
  ∧ heap s' = heap s ++ [a; a]
  ∧ currentText (organ_combo (widgets s')) = k
  ∧ operation_history s' = operation_history s ++
      [{| op_timestamp := default (clock s) (st_timestamp stats);
          op_type := segmentation; op_organ := k; op_stats := stats |}]
  ∧ (if allowed (ui_state s) MASK_READY
     then ui_state s' = MASK_READY
          ∧ raised (_on_segmentation_finished mask stats s) = None
     else ui_state s' = ui_state s
          ∧ raised (_on_segmentation_finished mask stats s) = Some IllegalTransitionError).
Proof.
  intros Ha k s'. subst s'. exec. cbn.
  rewrite (nd_copy_Some _ _ _ Ha). cbn.
  rewrite (nd_copy_Some _ _ _ (lookup_alloc_old _ _ a _ Ha)). cbn.
  rewrite length_app, Nat.add_1_r, <- app_assoc. cbn.
  fold k.
  assert (currentText
            (setCurrentText k
               (if bool_decide (k ∈ items (organ_combo (widgets s)))
                then organ_combo (widgets s)
                else addItem k (organ_combo (widgets s)))) = k) as Hcombo.
  { unfold setCurrentText, addItem.
    destruct (bool_decide (k ∈ items (organ_combo (widgets s)))) eqn:Hin; cbn.
    - rewrite Hin. reflexivity.
    - rewrite bool_decide_true by (apply elem_of_app; right; apply list_elem_of_singleton; done).
      reflexivity. }
  destruct (allowed (ui_state s) MASK_READY); cbn; rewrite ?Hcombo; done.
Qed.


End SegmentationFinished.


(** ** What an event can change *)

Section Frames.
Context `{Core}.

(** No handler removes or overwrites an array of the store. *)
Lemma handle_heap_grows (e : Event) (s : App) (l : loc) (a : ndarray) :
  heap s !! l = Some a →
  heap (outcome_state (handle e s)) !! l = Some a.
Proof.
  intros Hl. destruct e; cbn [handle]; exec;
    repeat (case_match; simplify_eq/=);
    repeat match goal with
    | Hc : nd_copy _ _ = Some _ |- _ =>
        apply nd_copy_inv in Hc as (? & ? & ? & ?); subst
    end;
    cbn; repeat apply lookup_alloc_old; done.
Qed.

(** Only a finished segmentation touches the dictionary of base masks. *)
Lemma handle_base_masks (e : Event) (s : App) :
  (∀ m st, e ≠ SegmentationFinished m st) →
  base_masks (outcome_state (handle e s)) = base_masks s.
Proof.
  intros Hne. destruct e; cbn [handle];
    try (exfalso; eapply Hne; reflexivity);
    exec; repeat (case_match; simplify_eq/=); done.
Qed.

(** A finished segmentation touches the entry of its own organ only. *)
Lemma segmentation_finished_other_organ (s : App) (mask : loc) (stats : Stats)
    (k : string) :
  default "unknown" (st_organ_key stats) ≠ k →
  base_masks (outcome_state (_on_segmentation_finished mask stats s)) !! k
  = base_masks s !! k.
Proof.
  intros Hne. exec; repeat (case_match; simplify_eq/=);
    rewrite ?lookup_insert_ne by done; done.
Qed.




End Frames.

(** ** Success of a refinement (claim C6) *)

Section RefinementFinished.
Context `{Core}.

(** C6.  [_on_refinement_finished] assigns the result to the current mask of
    its organ [k] and to nothing else: the dictionary of base masks and the
    store are as before, so the base mask of every organ and the current
    mask of every other organ are unchanged.  And over all events of the
    window, an event after which the base mask of [k] is another object or
    has other contents is a finished segmentation for [k]. *)
Theorem refinement_overwrites_current_only :
  (∀ (s : App) (mask : loc) (stats : Stats),
     let k := default (currentText (organ_combo (widgets s))) (st_organ_key stats) in
     let s' := outcome_state (_on_refinement_finished mask stats s) in
     masks s' = <[k := mask]> (masks s)
     ∧ base_masks s' = base_masks s
     ∧ heap s' = heap s
     ∧ (∀ k', base_mask s' k' = base_mask s k')
     ∧ (∀ k', k' ≠ k → current_mask s' k' = current_mask s k')
     ∧ current_mask s' k = heap s !! mask)
  ∧ (∀ (e : Event) (s : App) (k : string),
       let s' := outcome_state (handle e s) in
       (base_masks s' !! k ≠ base_masks s !! k
        ∨ ∃ a, base_mask s k = Some a ∧ base_mask s' k ≠ Some a) →
       ∃ m st, e = SegmentationFinished m st
               ∧ default "unknown" (st_organ_key st) = k).
Proof.
  split.
  - intros s mask stats k s'.
    assert (masks s' = <[k := mask]> (masks s) ∧ base_masks s' = base_masks s
            ∧ heap s' = heap s) as (Hm & Hb & Hh).
    { subst s' k. exec. repeat (case_match; simplify_eq/=); done. }
    unfold base_mask, current_mask, mask_of. rewrite Hm, Hb, Hh.
    split; [done|]. split; [done|]. split; [done|]. split; [done|].
    split.
    + intros k' Hne. by rewrite lookup_insert_ne.
    + by rewrite lookup_insert_eq.
  - intros e s k s' Hch.
    assert ((∃ m st, e = SegmentationFinished m st
                     ∧ default "unknown" (st_organ_key st) = k)
            ∨ base_masks s' !! k = base_masks s !! k) as [Hseg | Hsame].
    { destruct e; try (right; subst s'; by rewrite handle_base_masks).
      destruct (decide (default "unknown" (st_organ_key stats) = k)) as [Heq | Hne].
      - left. eauto.
      - right. subst s'. cbn [handle]. by apply segmentation_finished_other_organ. }
    + exact Hseg.
    + exfalso. destruct Hch as [Hch | (a & Ha & Hch)]; [done|].
      apply Hch. unfold base_mask, mask_of in *. rewrite Hsame.
      destruct (base_masks s !! k) as [b|]; cbn in *; [|done].
      subst s'. by apply handle_heap_grows.
Qed.

End RefinementFinished.

(** ** Reset to the base mask (claim C5) *)

Section ResetToBase.
Context `{Core}.


End ResetToBase.

(** ** Slicing and [preprocess_volume] (claim C10) *)

Lemma slice_index_in (n i : Z) : 0 ≤ i ≤ n → slice_index n i = i.
Proof. intros Hi. unfold slice_index. destruct (Z.ltb_spec i 0); lia. Qed.

Lemma slice_len_in (n a b : Z) : 0 ≤ a ≤ b → b ≤ n → slice_len n a b = b - a.
Proof. intros Ha Hb. unfold slice_len. rewrite !slice_index_in by lia. lia. Qed.

Lemma py_slice_in {A} (l : list A) (a b : Z) :
  0 ≤ a ≤ b → b ≤ Z.of_nat (length l) →
  py_slice a b l = take (Z.to_nat (b - a)) (drop (Z.to_nat a) l).
Proof.
  intros Ha Hb. unfold py_slice.
  by rewrite slice_len_in, slice_index_in by lia.
Qed.

Lemma py_slice_length {A} (l : list A) (a b : Z) :
  0 ≤ a ≤ b → b ≤ Z.of_nat (length l) →
  Z.of_nat (length (py_slice a b l)) = b - a.
Proof.
  intros Ha Hb. rewrite py_slice_in by done.
  rewrite length_take, length_drop. lia.
Qed.

Lemma py_slice_lookup {A} (l : list A) (a b : Z) (i : nat) :
  0 ≤ a ≤ b → b ≤ Z.of_nat (length l) → Z.of_nat i < b - a →
  py_slice a b l !! i = l !! (Z.to_nat a + i)%nat.
Proof.
  intros Ha Hb Hi. rewrite py_slice_in by done.
  rewrite lookup_take_lt by lia. apply lookup_drop.
Qed.

Lemma py_slice_Forall {A} (P : A → Prop) (l : list A) (a b : Z) :
  Forall P l → Forall P (py_slice a b l).
Proof. intros Hl. unfold py_slice. by apply Forall_take, Forall_drop. Qed.

Lemma wf_zeros (nz ny nx : nat) : wf_ndarray (zeros nz ny nx).
Proof.
  unfold wf_ndarray, zeros. cbn. split; [by rewrite length_replicate|].
  apply Forall_replicate. split; [by rewrite length_replicate|].
  apply Forall_replicate. by rewrite length_replicate.
Qed.

Section Slicing.
Variables (a : ndarray) (nz ny nx z0 z1 y0 y1 x0 x1 : Z).
Hypothesis Hwf : wf_ndarray a.
Hypothesis Hshape : shape a = (nz, ny, nx).
Hypothesis Hz : 0 ≤ z0 ≤ z1 ∧ z1 < nz.
Hypothesis Hy : 0 ≤ y0 ≤ y1 ∧ y1 < ny.
Hypothesis Hx : 0 ≤ x0 ≤ x1 ∧ x1 < nx.

Lemma wf_unfold :
  Z.of_nat (length (data a)) = nz
  ∧ Forall (λ plane, Z.of_nat (length plane) = ny
                     ∧ Forall (λ row, Z.of_nat (length row) = nx) plane) (data a).
Proof. unfold wf_ndarray in Hwf. by rewrite Hshape in Hwf. Qed.

Lemma nd_slice_shape :
  shape (nd_slice a z0 (z1 + 1) y0 (y1 + 1) x0 (x1 + 1))
  = (z1 - z0 + 1, y1 - y0 + 1, x1 - x0 + 1).
Proof.
  unfold nd_slice. rewrite Hshape. cbn.
  rewrite !slice_len_in by lia. repeat f_equal; lia.
Qed.

Lemma nd_slice_wf : wf_ndarray (nd_slice a z0 (z1 + 1) y0 (y1 + 1) x0 (x1 + 1)).
Proof.
  destruct wf_unfold as [Hlen Hplanes].
  unfold wf_ndarray. rewrite nd_slice_shape. unfold nd_slice.
  rewrite Hshape. cbn. split.
  - rewrite length_fmap, py_slice_length by lia. lia.
  - apply Forall_fmap.
    eapply Forall_impl; [apply py_slice_Forall, Hplanes|].
    intros plane [Hpl Hrows]. cbn. split.
    + rewrite length_fmap, py_slice_length by lia. lia.
    + apply Forall_fmap.
      eapply Forall_impl; [apply py_slice_Forall, Hrows|].
      intros row Hrow. cbn in *. rewrite py_slice_length by lia. lia.
Qed.

Lemma nd_slice_get (i j k : nat) :
  Z.of_nat i < z1 - z0 + 1 →
  Z.of_nat j < y1 - y0 + 1 →
  Z.of_nat k < x1 - x0 + 1 →
  nd_get (nd_slice a z0 (z1 + 1) y0 (y1 + 1) x0 (x1 + 1)) i j k
    = nd_get a (Z.to_nat z0 + i) (Z.to_nat y0 + j) (Z.to_nat x0 + k)
  ∧ is_Some (nd_get (nd_slice a z0 (z1 + 1) y0 (y1 + 1) x0 (x1 + 1)) i j k).
Proof.
  intros Hi Hj Hk. destruct wf_unfold as [Hlen Hplanes].
  unfold nd_get, nd_slice. rewrite Hshape. cbn.
  rewrite list_lookup_fmap, py_slice_lookup by lia.
  destruct (lookup_lt_is_Some_2 (data a) (Z.to_nat z0 + i)) as [plane Hplane]; [lia|].
  rewrite Hplane. cbn.
  destruct (Forall_lookup_1 _ _ _ _ Hplanes Hplane) as [Hpl Hrows].
  rewrite list_lookup_fmap, py_slice_lookup by lia.
  destruct (lookup_lt_is_Some_2 plane (Z.to_nat y0 + j)) as [row Hrow]; [lia|].
  rewrite Hrow. cbn.
  pose proof (Forall_lookup_1 _ _ _ _ Hrows Hrow) as Hr. cbn in Hr.
  rewrite py_slice_lookup by lia.
  split; [done|]. apply lookup_lt_is_Some_2. lia.
Qed.

End Slicing.

(** C10.  For a volume [a] in the store, [preprocess_volume] without a ROI
    returns a new array object with the shape and contents of [a]; with a
    ROI inside the volume it returns a new array object holding the
    inclusive box [a[z0..z1, y0..y1, x0..x1]], of shape
    [(z1 - z0 + 1, y1 - y0 + 1, x1 - x0 + 1)].  In both cases the store is
    only extended: the volume and every other array are as before. *)
Theorem preprocess_volume_copies_box (h : store) (volume : loc) (a : ndarray) :
  h !! volume = Some a →
  (∃ l', BaseSegmenter.preprocess_volume volume None h = Some (l', h ++ [a])
         ∧ l' ≠ volume ∧ h !! l' = None ∧ (h ++ [a]) !! l' = Some a
         ∧ ∀ l b, h !! l = Some b → (h ++ [a]) !! l = Some b)
  ∧ (∀ nz ny nx z0 z1 y0 y1 x0 x1 : Z,
       wf_ndarray a →
       shape a = (nz, ny, nx) →
       0 ≤ z0 ≤ z1 ∧ z1 < nz →
       0 ≤ y0 ≤ y1 ∧ y1 < ny →
       0 ≤ x0 ≤ x1 ∧ x1 < nx →
       ∃ l' sub,
         BaseSegmenter.preprocess_volume volume (Some (z0, z1, y0, y1, x0, x1)) h
           = Some (l', h ++ [sub])
         ∧ l' ≠ volume ∧ h !! l' = None ∧ (h ++ [sub]) !! l' = Some sub
         ∧ (∀ l b, h !! l = Some b → (h ++ [sub]) !! l = Some b)
         ∧ shape sub = (z1 - z0 + 1, y1 - y0 + 1, x1 - x0 + 1)
         ∧ wf_ndarray sub
         ∧ ∀ i j k : nat,
             Z.of_nat i < z1 - z0 + 1 →
             Z.of_nat j < y1 - y0 + 1 →
             Z.of_nat k < x1 - x0 + 1 →
             nd_get sub i j k
               = nd_get a (Z.to_nat z0 + i) (Z.to_nat y0 + j) (Z.to_nat x0 + k)
             ∧ is_Some (nd_get sub i j k)).
Proof.
  intros Ha. pose proof (lookup_lt_Some _ _ _ Ha) as Hlt. split.
  - exists (length h). unfold BaseSegmenter.preprocess_volume.
    rewrite (nd_copy_Some _ _ _ Ha).
    split; [done|]. split; [lia|]. split; [apply lookup_ge_None; lia|].
    split; [apply lookup_alloc_new|]. intros l b Hl. by apply lookup_alloc_old.
  - intros nz ny nx z0 z1 y0 y1 x0 x1 Hwf Hsh Hz Hy Hx.
    exists (length h), (nd_slice a z0 (z1 + 1) y0 (y1 + 1) x0 (x1 + 1)).
    unfold BaseSegmenter.preprocess_volume, alloc. rewrite Ha. cbn.
    split; [done|]. split; [lia|]. split; [apply lookup_ge_None; lia|].
    split; [apply lookup_alloc_new|].
    split; [intros l b Hl; by apply lookup_alloc_old|].
    split; [by eapply nd_slice_shape|].
    split; [by eapply nd_slice_wf|].
    intros i j k. by eapply nd_slice_get.
Qed.

(** The inclusive box z = [0, 1], y = [1, 2], x = [1, 3] of the small
    volume. *)
Lemma preprocess_volume_copies_box_witness :
  ∃ l' sub,
    BaseSegmenter.preprocess_volume 0%nat (Some (0, 1, 1, 2, 1, 3)) [small_volume]
      = Some (l', [small_volume] ++ [sub])
    ∧ l' ≠ 0%nat
    ∧ shape sub = (1 - 0 + 1, 2 - 1 + 1, 3 - 1 + 1)
    ∧ nd_get sub 0 0 0 = nd_get small_volume 0 1 1.
Proof.
  assert (wf_ndarray small_volume) as Hwf.
  { unfold wf_ndarray, small_volume. cbn. split; [reflexivity|].
    repeat (constructor; [split; [reflexivity|]; repeat constructor|]).
    constructor. }
  destruct (proj2 (preprocess_volume_copies_box [small_volume] 0%nat small_volume
                     eq_refl)
              2 3 4 0 1 1 2 1 3 Hwf eq_refl
              ltac:(lia) ltac:(lia) ltac:(lia))
    as (l' & sub & Hp & Hne & _ & _ & _ & Hsh & _ & Hget).
  exists l', sub. split; [exact Hp|]. split; [exact Hne|]. split; [exact Hsh|].
  apply (Hget 0%nat 0%nat 0%nat); lia.
Defined.

(** ** Witnesses for the mask store *)

(** A finished segmentation changes the base mask of its organ, and the
    second part of C6 names it. *)
Lemma refinement_overwrites_current_only_witness :
  (∃ m st, SegmentationFinished 1%nat example_seg_stats = SegmentationFinished m st
           ∧ default "unknown" (st_organ_key st) = "lung")
  ∧ current_mask
      (outcome_state
         (_on_refinement_finished (H := spec_core) 1%nat example_ref_stats
            small_refining_app)) "liver"
    = current_mask small_refining_app "liver".
Proof.
  split.
  - apply (proj2 (refinement_overwrites_current_only (H := spec_core))
             (SegmentationFinished 1%nat example_seg_stats)
             small_segmenting_app "lung").
    left. vm_compute. discriminate.
  - apply (proj1 (refinement_overwrites_current_only (H := spec_core))
             small_refining_app 1%nat example_ref_stats).
    vm_compute. discriminate.
Defined.


(** ** Configuration loading (claim C8) *)

(** C8 at the failing input: a configuration file that exists and is not
    YAML.  [_load_config] lets [yaml.YAMLError] escape instead of falling
    back to the defaults, nothing is shown, and [main] reports a fatal error
    and returns 1.  Only for a missing file are the defaults returned, with
    one warning. *)
Theorem load_config_unparseable_is_fatal
    (build_window : Yaml → DisplayDefaults → option Exn) (exec_code : Z)
    (config_path text : string) :
  _load_config config_path (Unparseable text) = ([], inl YAMLError)
  ∧ main build_window exec_code config_path (Unparseable text)
    = {| main_dialogs := []; main_fatal := Some YAMLError; main_code := 1 |}
  ∧ _load_config config_path FileMissing
    = ([WarnConfigNotFound config_path], inr _get_default_config).
Proof. split; [|split]; reflexivity. Qed.

(** With a missing file [__init__] finds in the defaults every key it
    reads, and start-up fails only if building the window does. *)
Lemma main_missing_config_starts
    (build_window : Yaml → DisplayDefaults → option Exn) (exec_code : Z)
    (config_path : string) :
  build_window _get_default_config
    {| window_center := YInt (-600); window_width := YInt 1500;
       auto_window := YBool true |} = None →
  main build_window exec_code config_path FileMissing
  = {| main_dialogs := [WarnConfigNotFound config_path]; main_fatal := None;
       main_code := exec_code |}.
Proof.
  intros Hb. unfold main, __init__. vm_compute in Hb |- *. rewrite Hb. reflexivity.
Qed.


(** * Further properties of the handlers *)

(** ** Dispatch refused by the handlers' own checks *)

Section DispatchPreconditions.
Context `{Core}.

(** [_segment_roi] with a precondition of its own unmet: a missing
    annotation, a combined region the ROI manager rejects, or a model that
    cannot be loaded.  In each case the handler returns after exactly one
    message box and changes nothing else: no transition, no worker, no line
    in the text log.  With both annotations set and no volume loaded, the
    access to [self.volume.shape] raises [AttributeError] before anything
    is changed. *)
Theorem segment_roi_refusals (s : App) :
  (has_both_rois (roi_manager s) = false →
   _segment_roi s = Return tt (shown WarnDrawBothRois s))
  ∧ (∀ (v : loc) (a : ndarray),
       has_both_rois (roi_manager s) = true →
       volume s = Some v → heap s !! v = Some a →
       get_combined_roi_coords (roi_manager s) (shape a) = None →
       _segment_roi s = Return tt (shown WarnCombinedRoi s))
  ∧ (∀ (v : loc) (a : ndarray) (roi : ROI6),
       has_both_rois (roi_manager s) = true →
       volume s = Some v → heap s !! v = Some a →
       get_combined_roi_coords (roi_manager s) (shape a) = Some roi →
       get_model_instance (model_combo (widgets s)) (cpu_checkbox (widgets s)) = None →
       _segment_roi s
       = Return tt (shown (CritModelNotLoaded (model_combo (widgets s))) s))
  ∧ (has_both_rois (roi_manager s) = true → volume s = None →
     _segment_roi s = Raise AttributeError s).
Proof.
  split; [|split; [|split]].
  - intros Hb. exec. rewrite Hb. reflexivity.
  - intros v a Hb Hv Ha Hc. exec. rewrite Hb. cbn. rewrite Hv. cbn. rewrite Ha. cbn.
    rewrite Hc. reflexivity.
  - intros v a roi Hb Hv Ha Hc Hm. exec. rewrite Hb. cbn. rewrite Hv. cbn.
    rewrite Ha. cbn. rewrite Hc, Hm. reflexivity.
  - intros Hb Hv. exec. rewrite Hb. cbn. rewrite Hv. reflexivity.
Qed.

(** [_apply_mask_refinement] for an organ without a base mask: one warning,
    nothing else. *)
Theorem apply_mask_refinement_without_base (s : App) :
  base_masks s !! currentText (organ_combo (widgets s)) = None →
  _apply_mask_refinement s = Return tt (shown WarnSegmentFirst s).
Proof. intros Hn. exec. rewrite Hn. reflexivity. Qed.


End DispatchPreconditions.

Lemma segment_roi_refusals_witness :
  _segment_roi (H := ungated_core) example_roi1_app
  = Return tt (shown WarnDrawBothRois example_roi1_app).
Proof.
  apply (proj1 (segment_roi_refusals (H := ungated_core) example_roi1_app)).
  reflexivity.
Defined.

Lemma apply_mask_refinement_without_base_witness :
  _apply_mask_refinement (H := ungated_core) small_segmenting_app
  = Return tt (shown WarnSegmentFirst small_segmenting_app).
Proof.
  apply (apply_mask_refinement_without_base (H := ungated_core) small_segmenting_app).
  reflexivity.
Defined.


(** ** Invariants over the events of the window *)

Section Invariants.
Context `{Core}.

Lemma segmentation_finished_dangling (s : App) (mask : loc) (stats : Stats) :
  heap s !! mask = None →
  _on_segmentation_finished mask stats s = Raise DanglingReference s.
Proof. intros Hn. exec. unfold nd_copy. rewrite Hn. reflexivity. Qed.

Lemma handle_organ_combo (e : Event) (s : App) :
  (∀ m st, e ≠ SegmentationFinished m st) →
  organ_combo (widgets (outcome_state (handle e s))) = organ_combo (widgets s).
Proof.
  intros Hne. destruct e; cbn [handle];
    try (exfalso; eapply Hne; reflexivity);
    exec; repeat (case_match; simplify_eq/=); done.
Qed.

Lemma handle_masks_keep (e : Event) (s : App) (k : string) :
  is_Some (masks s !! k) →
  is_Some (masks (outcome_state (handle e s)) !! k).
Proof.
  intros Hk. destruct e; cbn [handle]; exec;
    repeat (case_match; simplify_eq/=); try done;
    match goal with
    | |- is_Some (<[?k' := _]> _ !! _) =>
        destruct (decide (k' = k)) as [->|];
        [rewrite lookup_insert_eq; eauto | by rewrite lookup_insert_ne]
    end.
Qed.

Lemma handle_operation_history (e : Event) (s : App) :
  operation_history (outcome_state (handle e s)) = operation_history s
  ∨ ∃ r, operation_history (outcome_state (handle e s)) = operation_history s ++ [r]
         ∧ ((∃ m st, e = SegmentationFinished m st ∧ op_type r = segmentation
                     ∧ op_stats r = st
                     ∧ op_organ r = default "unknown" (st_organ_key st))
            ∨ (∃ m st, e = RefinementFinished m st ∧ op_type r = refinement
                       ∧ op_stats r = st)).
Proof.
  destruct e; cbn [handle]; exec;
    repeat (case_match; simplify_eq/=); try (by left);
    right; eexists; (split; [reflexivity|]); cbn; eauto 10.
Qed.

(** The operation history is append-only.  An event leaves it as it is or
    appends exactly one record, and a record is appended only by a finished
    segmentation (a record of kind segmentation, for the organ of the
    result) or by a finished refinement (a record of kind refinement),
    carrying the statistics of the result; over any sequence of events the
    history at the start is a prefix of the history at the end. *)
Theorem operation_history_append_only :
  (∀ (e : Event) (s : App),
     operation_history (outcome_state (handle e s)) = operation_history s
     ∨ ∃ r, operation_history (outcome_state (handle e s)) = operation_history s ++ [r]
            ∧ ((∃ m st, e = SegmentationFinished m st ∧ op_type r = segmentation
                        ∧ op_stats r = st
                        ∧ op_organ r = default "unknown" (st_organ_key st))
               ∨ (∃ m st, e = RefinementFinished m st ∧ op_type r = refinement
                          ∧ op_stats r = st)))
  ∧ (∀ (es : list Event) (s : App),
       operation_history s `prefix_of` operation_history (after es s)).
Proof.
  split; [apply handle_operation_history|].
  intros es. induction es as [|e es IH]; intros s; [done|].
  cbn. etrans; [|apply IH].
  destruct (handle_operation_history e s) as [-> | (r & -> & _)];
    [done | by apply prefix_app_r].
Qed.

Lemma organs_listed_step (e : Event) (s : App) :
  organs_listed s → organs_listed (outcome_state (handle e s)).
Proof.
  intros (Hnd & Hiff & Hsel).
  assert ((∀ m st, e ≠ SegmentationFinished m st)
          ∨ ∃ m st, e = SegmentationFinished m st) as [Hne | (m & st & ->)].
  { destruct e; eauto; left; intros; discriminate. }
  { unfold organs_listed.
    by rewrite handle_base_masks, handle_organ_combo. }
  cbn [handle]. destruct (heap s !! m) as [a|] eqn:Hm.
  2:{ by rewrite segmentation_finished_dangling. }
  destruct (segmentation_finished_store s m st a Hm) as (Hb & _ & _ & Hk & _).
  set (k := default "unknown" (st_organ_key st)) in *.
  set (s' := outcome_state (_on_segmentation_finished m st s)) in *.
  assert (items (organ_combo (widgets s'))
          = if bool_decide (k ∈ items (organ_combo (widgets s)))
            then items (organ_combo (widgets s))
            else items (organ_combo (widgets s)) ++ [k]) as Hitems.
  { subst s' k. exec. cbn.
    rewrite (nd_copy_Some _ _ _ Hm). cbn.
    rewrite (nd_copy_Some _ _ _ (lookup_alloc_old _ _ a _ Hm)). cbn.
    unfold setCurrentText, addItem.
    destruct (allowed (ui_state s) MASK_READY); cbn;
      repeat (case_bool_decide; cbn); done. }
  unfold organs_listed. rewrite Hitems, Hb, Hk.
  case_bool_decide as Hin.
  - split; [done|]. split; [|by right].
    intros k'. destruct (decide (k = k')) as [<-|Hne].
    + rewrite lookup_insert_eq. split; eauto.
    + by rewrite lookup_insert_ne.
  - split.
    { apply NoDup_app. split; [done|]. split; [|apply NoDup_singleton].
      intros x Hx ->%list_elem_of_singleton. done. }
    split; [|right; apply elem_of_app; right; by apply list_elem_of_singleton].
    intros k'. rewrite elem_of_app, list_elem_of_singleton.
    destruct (decide (k = k')) as [<-|Hne].
    + rewrite lookup_insert_eq. split; eauto.
    + rewrite lookup_insert_ne by done. rewrite <- Hiff.
      split; [intros [?|?]; [done|congruence] | by left].
Qed.

Lemma base_has_current_step (e : Event) (s : App) :
  base_has_current s → base_has_current (outcome_state (handle e s)).
Proof.
  intros Hinv k Hk.
  assert ((∀ m st, e ≠ SegmentationFinished m st)
          ∨ ∃ m st, e = SegmentationFinished m st) as [Hne | (m & st & ->)].
  { destruct e; eauto; left; intros; discriminate. }
  { rewrite handle_base_masks in Hk by done. by apply handle_masks_keep, Hinv. }
  cbn [handle] in *. destruct (heap s !! m) as [a|] eqn:Hm.
  2:{ rewrite segmentation_finished_dangling in * by done. by apply Hinv. }
  destruct (segmentation_finished_store s m st a Hm) as (Hb & Hc & _).
  rewrite Hb in Hk. rewrite Hc.
  destruct (decide (default "unknown" (st_organ_key st) = k)) as [<-|Hne].
  - rewrite lookup_insert_eq. eauto.
  - rewrite lookup_insert_ne in * by done. by apply Hinv.
Qed.

Lemma organs_listed_reachable (es : list Event) (models : list string) (now : Z) :
  organs_listed (after es (initial_app models now)).
Proof.
  assert (organs_listed (initial_app models now)) as Hinit.
  { split; [apply NoDup_nil_2|]. split; [|by left].
    intros k. cbn. rewrite lookup_empty. split.
    - by intros ?%not_elem_of_nil.
    - by intros [? ?]. }
  revert Hinit. generalize (initial_app models now).
  induction es as [|e es IH]; intros s Hs; [done|].
  cbn. apply IH. by apply organs_listed_step.
Qed.

Lemma base_has_current_reachable (es : list Event) (models : list string) (now : Z) :
  base_has_current (after es (initial_app models now)).
Proof.
  assert (base_has_current (initial_app models now)) as Hinit.
  { intros k. cbn. rewrite lookup_empty. by intros [? ?]. }
  revert Hinit. generalize (initial_app models now).
  induction es as [|e es IH]; intros s Hs; [done|].
  cbn. apply IH. by apply base_has_current_step.
Qed.

(** In every state the window reaches from its initial state, whatever the
    events and whether or not their handlers raised: the organ selector
    lists exactly the organs that have a base mask, each once; unless it is
    empty its current text is one of them; and every organ with a base mask
    has a current mask. *)
Theorem organ_selector_lists_segmented_organs (es : list Event)
    (models : list string) (now : Z) :
  organs_listed (after es (initial_app models now))
  ∧ base_has_current (after es (initial_app models now)).
Proof.
  split; [apply organs_listed_reachable | apply base_has_current_reachable].
Qed.

(** In a state reached from the initial window, the selected organ lacks a
    base mask only as long as no segmentation at all has finished: the
    warning of [_apply_mask_refinement] and the silent return of
    [_reset_to_base_mask] occur only while the store of base masks and the
    organ selector are empty. *)
Theorem no_base_only_before_first_segmentation (es : list Event)
    (models : list string) (now : Z) :
  let s := after es (initial_app models now) in
  base_masks s !! currentText (organ_combo (widgets s)) = None →
  base_masks s = ∅ ∧ items (organ_combo (widgets s)) = [].
Proof.
  intros s Hn.
  destruct (organs_listed_reachable es models now) as (_ & Hiff & Hsel).
  fold s in Hiff, Hsel.
  destruct Hsel as [Hnil | Hin].
  - split; [|done]. apply map_eq. intros k. rewrite lookup_empty.
    destruct (base_masks s !! k) eqn:Hk; [|done].
    assert (k ∈ items (organ_combo (widgets s))) as Hk' by (apply Hiff; eauto).
    rewrite Hnil in Hk'. by apply not_elem_of_nil in Hk'.
  - apply Hiff in Hin. rewrite Hn in Hin. by destruct Hin.
Qed.

End Invariants.

(** Before the first segmentation has finished, in the session on the small
    volume. *)
Lemma no_base_only_before_first_segmentation_witness :
  base_masks (after (H := ungated_core) small_events (initial_app ["lungmask"] 0)) = ∅
  ∧ items (organ_combo (widgets
      (after (H := ungated_core) small_events (initial_app ["lungmask"] 0)))) = [].
Proof.
  apply (no_base_only_before_first_segmentation (H := ungated_core)
           small_events ["lungmask"] 0).
  reflexivity.
Defined.

(** ** Reset, loading and the annotations *)


Section Loading.
Context `{Core}.


(** A load that fails.  [_load_dicom] on a cancelled dialog does nothing;
    on a folder, once the state manager accepts the transition, it moves
    the window to [INITIAL] and starts one load worker, without touching the
    volume, the masks or the annotations.  [_on_load_error] asks for no
    transition and restores nothing: after [_load_dicom] and
    [_on_load_error] the window is in [INITIAL] while the volume, the masks
    and the annotations of before the load are still stored. *)
Theorem failed_load_stays_initial (s : App) (folder error_msg : string) :
  _load_dicom EmptyString s = Return tt s
  ∧ ui_state (outcome_state (_on_load_error error_msg s)) = ui_state s
  ∧ raised (_on_load_error error_msg s) = None
  ∧ (folder ≠ EmptyString → allowed (ui_state s) INITIAL = true →
     ∃ s1 s2,
       _load_dicom folder s = Return tt s1
       ∧ ui_state s1 = INITIAL
       ∧ started s1 = started s ++ [DataLoadWorker folder]
       ∧ _on_load_error error_msg s1 = Return tt s2
       ∧ ui_state s2 = INITIAL
       ∧ volume s2 = volume s ∧ masks s2 = masks s ∧ base_masks s2 = base_masks s
       ∧ roi_manager s2 = roi_manager s
       ∧ dialogs (widgets s2) = dialogs (widgets s) ++ [CritLoadFailed error_msg]
       ∧ pb_visible (progress_bar (widgets s2)) = false).
Proof.
  split; [reflexivity|]. split; [reflexivity|]. split; [reflexivity|].
  intros Hf Hal. eexists _, _. split.
  { exec. rewrite bool_decide_false by done. cbn. rewrite Hal. reflexivity. }
  cbn. do 2 (split; [done|]). split; [reflexivity|]. cbn. done.
Qed.

(** [_roi2_callback] without a first annotation fails with [TypeError], and
    with a first annotation but no volume with [AttributeError]; in both
    cases before anything is recorded, logged or asked of the state
    manager. *)
Theorem roi2_callback_fails_early (s : App) (coords : Z * Z * Z * Z) :
  (roi1_3d (roi_manager s) = None →
   _roi2_callback coords s = Raise TypeError s)
  ∧ (is_Some (roi1_3d (roi_manager s)) → volume s = None →
     _roi2_callback coords s = Raise AttributeError s).
Proof.
  split.
  - intros Hn. exec. rewrite Hn. reflexivity.
  - intros [r Hr] Hv. exec. rewrite Hr. cbn. rewrite Hv. reflexivity.
Qed.

End Loading.

(** Drawing the recorded rectangle again changes nothing, as long as the
    first adjustment was not cut at the upper bound of the slice: for a
    result [(x0, x1, y0, y1)] of [roi2_adjust] with [x1 = x0 + w] and
    [y1 = y0 + h], adjusting [(x0, x1, y0, y1)] returns it unchanged. *)
Theorem roi2_adjust_idempotent (roi1 : ROI5) (sh : Z * Z * Z)
    (coords : Z * Z * Z * Z) (x0 x1 y0 y1 : Z) :
  let '(_, r_y0, r_y1, r_x0, r_x1) := roi1 in
  roi2_adjust roi1 sh coords = (x0, x1, y0, y1) →
  x1 = x0 + (r_x1 - r_x0) →
  y1 = y0 + (r_y1 - r_y0) →
  roi2_adjust roi1 sh (x0, x1, y0, y1) = (x0, x1, y0, y1).
Proof.
  destruct roi1 as [[[[z r_y0] r_y1] r_x0] r_x1].
  destruct coords as [[[xmin xmax] ymin] ymax].
  destruct sh as [[nz ny] nx].
  unfold roi2_adjust. cbn. intros [= Hx0 Hx1 Hy0 Hy1] Hfx Hfy.
  assert ((x0 + x1) // 2 - (r_x1 - r_x0) // 2 = x0) as Hcx.
  { rewrite Hfx. pose proof (floordiv_2_bounds (r_x1 - r_x0)).
    pose proof (floordiv_2_bounds (x0 + (x0 + (r_x1 - r_x0)))). lia. }
  assert ((y0 + y1) // 2 - (r_y1 - r_y0) // 2 = y0) as Hcy.
  { rewrite Hfy. pose proof (floordiv_2_bounds (r_y1 - r_y0)).
    pose proof (floordiv_2_bounds (y0 + (y0 + (r_y1 - r_y0)))). lia. }
  rewrite Hcx, Hcy.
  assert (0 ≤ x0) by lia. assert (0 ≤ y0) by lia.
  rewrite !(Z.max_r 0) by lia.
  repeat (f_equal; try lia).
Qed.

Section RefinementDispatch.
Context `{Core}.


End RefinementDispatch.




Lemma failed_load_stays_initial_witness :
  ∃ s1 s2,
    _load_dicom (H := ungated_core) "other study" small_refining_app = Return tt s1
    ∧ _on_load_error "no DICOM series found" s1 = Return tt s2
    ∧ ui_state s2 = INITIAL
    ∧ volume s2 = volume small_refining_app.
Proof.
  destruct (proj2 (proj2 (proj2
              (failed_load_stays_initial (H := ungated_core) small_refining_app
                 "other study" "no DICOM series found")))
              ltac:(discriminate) eq_refl)
    as (s1 & s2 & H1 & _ & _ & H2 & Hst & Hv & _).
  exists s1, s2. split; [exact H1|]. split; [exact H2|]. split; [exact Hst|exact Hv].
Defined.

Lemma roi2_callback_fails_early_witness :
  _roi2_callback (H := ungated_core) (1, 3, 1, 2) (initial_app ["lungmask"] 0)
  = Raise TypeError (initial_app ["lungmask"] 0).
Proof.
  apply (proj1 (roi2_callback_fails_early (H := ungated_core)
                  (initial_app ["lungmask"] 0) (1, 3, 1, 2))).
  reflexivity.
Defined.

(** The rectangle of the specification's example, drawn again. *)
Lemma roi2_adjust_idempotent_witness :
  roi2_adjust (40, 100, 400, 100, 400) (100, 512, 512) (150, 450, 150, 450)
  = (150, 450, 150, 450).
Proof.
  apply (roi2_adjust_idempotent (40, 100, 400, 100, 400) (100, 512, 512)
           (290, 310, 290, 310) 150 450 150 450);
    vm_compute; reflexivity.
Defined.

(** * Properties of [BaseSegmenter] *)

(** ** [validate_input] *)





(** ** [postprocess_mask] *)

Lemma binarize_get (a : ndarray) (i j k : nat) :
  nd_get (BaseSegmenter.binarize a) i j k
  = (λ v : Z, if 0 <? v then 1 else 0) <$> nd_get a i j k.
Proof.
  unfold nd_get, BaseSegmenter.binarize. cbn.
  rewrite list_lookup_fmap. destruct (data a !! i) as [plane|]; cbn; [|done].
  rewrite list_lookup_fmap. destruct (plane !! j) as [row|]; cbn; [|done].
  by rewrite list_lookup_fmap.
Qed.

Lemma fmap_idemp {A} (f : A → A) (l : list A) :
  (∀ x, f (f x) = f x) → f <$> (f <$> l) = f <$> l.
Proof.
  intros Hf. rewrite <- list_fmap_compose. apply Forall_fmap_ext_1, Forall_forall.
  intros x _. apply Hf.
Qed.

Lemma binarize_idemp (a : ndarray) :
  BaseSegmenter.binarize (BaseSegmenter.binarize a) = BaseSegmenter.binarize a.
Proof.
  unfold BaseSegmenter.binarize. cbn. f_equal.
  apply fmap_idemp. intros plane. apply fmap_idemp. intros row.
  apply fmap_idemp. intros v. by repeat case_match.
Qed.

Lemma binarize_wf (a : ndarray) :
  wf_ndarray a → wf_ndarray (BaseSegmenter.binarize a).
Proof.
  unfold wf_ndarray, BaseSegmenter.binarize. cbn.
  destruct (shape a) as [[nz ny] nx]. intros [Hlen Hplanes].
  split; [by rewrite length_fmap|].
  apply Forall_fmap. eapply Forall_impl; [exact Hplanes|].
  intros plane [Hpl Hrows]. cbn. split; [by rewrite length_fmap|].
  apply Forall_fmap. eapply Forall_impl; [exact Hrows|].
  intros row Hrow. cbn. by rewrite length_fmap.
Qed.

(** [postprocess_mask] returns a new array of the shape of its argument
    whose voxels are 1 where the argument is positive and 0 elsewhere, so
    every voxel of the result is 0 or 1; the argument and every other array
    of the store are left as they are; and processing the result again
    gives the same contents. *)
Theorem postprocess_mask_binary (h : store) (mask : loc) (a : ndarray) :
  h !! mask = Some a →
  ∃ (l' : loc) (b : ndarray),
    BaseSegmenter.postprocess_mask mask h = Some (l', h ++ [b])
    ∧ l' ≠ mask ∧ h !! l' = None ∧ (h ++ [b]) !! l' = Some b
    ∧ (∀ l c, h !! l = Some c → (h ++ [b]) !! l = Some c)
    ∧ shape b = shape a
    ∧ (wf_ndarray a → wf_ndarray b)
    ∧ (∀ i j k, nd_get b i j k
                = (λ v : Z, if 0 <? v then 1 else 0) <$> nd_get a i j k)
    ∧ (∀ i j k v, nd_get b i j k = Some v → v = 0 ∨ v = 1)
    ∧ (∃ l'', BaseSegmenter.postprocess_mask l' (h ++ [b])
              = Some (l'', (h ++ [b]) ++ [b])).
Proof.
  intros Ha. pose proof (lookup_lt_Some _ _ _ Ha) as Hlt.
  exists (length h), (BaseSegmenter.binarize a).
  unfold BaseSegmenter.postprocess_mask, alloc. rewrite Ha. cbn.
  split; [done|]. split; [lia|]. split; [apply lookup_ge_None; lia|].
  split; [apply lookup_alloc_new|].
  split; [intros l c Hl; by apply lookup_alloc_old|].
  split; [done|]. split; [apply binarize_wf|].
  split; [apply binarize_get|].
  split.
  - intros i j k v. rewrite binarize_get.
    destruct (nd_get a i j k) as [w|]; cbn; [|done].
    intros [= <-]. case_match; auto.
  - exists (length (h ++ [BaseSegmenter.binarize a])).
    rewrite lookup_alloc_new. cbn. by rewrite binarize_idemp.
Qed.

(** The small volume taken as a mask: 23 of its 24 voxels are positive. *)
Lemma postprocess_mask_binary_witness :
  ∃ l' b, BaseSegmenter.postprocess_mask 0%nat [small_volume] = Some (l', [small_volume] ++ [b])
          ∧ nd_get b 0 0 0 = Some 0
          ∧ nd_get b 1 2 3 = Some 1.
Proof.
  destruct (postprocess_mask_binary [small_volume] 0%nat small_volume eq_refl)
    as (l' & b & Hp & _ & _ & _ & _ & _ & _ & Hget & _).
  exists l', b. split; [exact Hp|]. rewrite !Hget. split; reflexivity.
Defined.

(** ** [preprocess_volume] at and beyond the bounds *)

Lemma slice_index_range (n i : Z) : 0 ≤ n → 0 ≤ slice_index n i ≤ n.
Proof. intros Hn. unfold slice_index. destruct (Z.ltb_spec i 0); lia. Qed.

Lemma py_slice_length_gen {A} (l : list A) (a b : Z) :
  Z.of_nat (length (py_slice a b l)) = slice_len (Z.of_nat (length l)) a b.
Proof.
  unfold py_slice. rewrite length_take, length_drop. unfold slice_len.
  pose proof (slice_index_range (Z.of_nat (length l)) a ltac:(lia)).
  pose proof (slice_index_range (Z.of_nat (length l)) b ltac:(lia)).
  lia.
Qed.

Lemma py_slice_fmap {A B} (f : A → B) (l : list A) (a b : Z) :
  py_slice a b (f <$> l) = f <$> py_slice a b l.
Proof. unfold py_slice. by rewrite length_fmap, fmap_take, fmap_drop. Qed.

Lemma py_slice_full {A} (l : list A) (n : Z) :
  n = Z.of_nat (length l) → py_slice 0 n l = l.
Proof.
  intros ->. rewrite py_slice_in by lia. cbn. rewrite drop_0.
  apply take_ge. lia.
Qed.

Lemma py_slice_py_slice {A} (l : list A) (a b c d : Z) :
  0 ≤ a ≤ b → b ≤ Z.of_nat (length l) → 0 ≤ c ≤ d → d ≤ b - a →
  py_slice c d (py_slice a b l) = py_slice (a + c) (a + d) l.
Proof.
  intros Ha Hb Hc Hd.
  rewrite (py_slice_in (py_slice a b l)) by (rewrite ?py_slice_length; lia).
  rewrite !(py_slice_in l) by lia.
  rewrite (take_drop_commute l (Z.to_nat (b - a))), drop_drop.
  rewrite (take_drop_commute (take _ l)), take_take.
  rewrite (take_drop_commute l).
  replace (Z.to_nat (a + c)) with (Z.to_nat a + Z.to_nat c)%nat by lia.
  f_equal. f_equal. lia.
Qed.

Lemma nd_slice_wf_gen (a : ndarray) (z0 z1 y0 y1 x0 x1 : Z) :
  wf_ndarray a → wf_ndarray (nd_slice a z0 z1 y0 y1 x0 x1).
Proof.
  unfold wf_ndarray, nd_slice. destruct (shape a) as [[nz ny] nx]. cbn.
  intros [Hlen Hplanes]. split.
  - rewrite length_fmap, py_slice_length_gen. by rewrite Hlen.
  - apply Forall_fmap. eapply Forall_impl; [apply py_slice_Forall, Hplanes|].
    intros plane [Hpl Hrows]. cbn. split.
    + rewrite length_fmap, py_slice_length_gen. by rewrite Hpl.
    + apply Forall_fmap. eapply Forall_impl; [apply py_slice_Forall, Hrows|].
      intros row Hrow. cbn in *. rewrite py_slice_length_gen. by rewrite Hrow.
Qed.

Lemma fmap_id_Forall {A} (f : A → A) (l : list A) :
  Forall (λ x, f x = x) l → f <$> l = l.
Proof.
  intros Hl. rewrite <- (list_fmap_id l) at 2. by apply Forall_fmap_ext_1.
Qed.

(** [preprocess_volume] never rejects a ROI.  Whatever the six bounds, the
    result is a well-formed new array whose extent on each axis follows
    Python's rule for the slice [lo : hi + 1].  An upper bound at or beyond
    the end of the axis is cut at the end; a ROI whose upper bound lies
    below its lower bound gives an empty axis; and a negative lower bound is
    not cut at 0 but counted from the end of the axis. *)
Theorem preprocess_volume_any_roi (h : store) (volume : loc) (a : ndarray)
    (nz ny nx z0 z1 y0 y1 x0 x1 : Z) :
  h !! volume = Some a →
  wf_ndarray a →
  shape a = (nz, ny, nx) →
  (∃ l' sub,
     BaseSegmenter.preprocess_volume volume (Some (z0, z1, y0, y1, x0, x1)) h
       = Some (l', h ++ [sub])
     ∧ wf_ndarray sub
     ∧ shape sub = (slice_len nz z0 (z1 + 1), slice_len ny y0 (y1 + 1),
                    slice_len nx x0 (x1 + 1)))
  ∧ (∀ n lo hi, 0 ≤ lo ≤ n → n - 1 ≤ hi → slice_len n lo (hi + 1) = n - lo)
  ∧ (∀ n lo hi, 0 ≤ n → 0 ≤ lo → -1 ≤ hi < lo → slice_len n lo (hi + 1) = 0)
  ∧ (∀ n lo hi, - n ≤ lo < 0 → n - 1 ≤ hi → slice_len n lo (hi + 1) = - lo).
Proof.
  intros Ha Hwf Hsh. split; [|split; [|split]].
  - eexists _, _. unfold BaseSegmenter.preprocess_volume, alloc. rewrite Ha. cbn.
    split; [reflexivity|]. split; [by apply nd_slice_wf_gen|].
    unfold nd_slice. by rewrite Hsh.
  - intros n lo hi Hlo Hhi. unfold slice_len, slice_index.
    destruct (Z.ltb_spec lo 0), (Z.ltb_spec (hi + 1) 0); lia.
  - intros n lo hi Hn Hlo Hhi. unfold slice_len, slice_index.
    destruct (Z.ltb_spec lo 0), (Z.ltb_spec (hi + 1) 0); lia.
  - intros n lo hi Hlo Hhi. unfold slice_len, slice_index.
    destruct (Z.ltb_spec lo 0), (Z.ltb_spec (hi + 1) 0); lia.
Qed.

(** A ROI that reaches past the end of every axis of the small volume. *)
Lemma preprocess_volume_any_roi_witness :
  ∃ l' sub,
    BaseSegmenter.preprocess_volume 0%nat (Some (1, 7, 1, 7, 1, 7)) [small_volume]
      = Some (l', [small_volume] ++ [sub])
    ∧ shape sub = (1, 2, 3).
Proof.
  assert (wf_ndarray small_volume) as Hwf.
  { unfold wf_ndarray, small_volume. cbn. split; [reflexivity|].
    repeat (constructor; [split; [reflexivity|]; repeat constructor|]).
    constructor. }
  destruct (proj1 (preprocess_volume_any_roi [small_volume] 0%nat small_volume
                     2 3 4 1 7 1 7 1 7 eq_refl Hwf eq_refl))
    as (l' & sub & Hp & _ & Hsh).
  exists l', sub. split; [exact Hp|exact Hsh].
Defined.

(** ** [preprocess_volume]: the whole volume, and a box within a box *)

Lemma nd_slice_full (a : ndarray) (nz ny nx : Z) :
  wf_ndarray a → shape a = (nz, ny, nx) → 0 ≤ ny → 0 ≤ nx →
  nd_slice a 0 (nz - 1 + 1) 0 (ny - 1 + 1) 0 (nx - 1 + 1) = a.
Proof.
  intros Hwf Hsh Hny Hnx. unfold wf_ndarray in Hwf. rewrite Hsh in Hwf.
  destruct Hwf as [Hlen Hplanes].
  destruct a as [sh dat]. cbn in *. subst sh. unfold nd_slice. cbn.
  f_equal.
  - rewrite !slice_len_in by lia. f_equal; [f_equal|]; lia.
  - rewrite py_slice_full by lia. apply fmap_id_Forall.
    eapply Forall_impl; [exact Hplanes|]. intros plane [Hpl Hrows]. cbn in *.
    rewrite py_slice_full by lia. apply fmap_id_Forall.
    eapply Forall_impl; [exact Hrows|]. intros row Hrow. cbn in *.
    apply py_slice_full. lia.
Qed.

Lemma nd_slice_nd_slice (a : ndarray) (nz ny nx : Z)
    (z0 z1 y0 y1 x0 x1 z0' z1' y0' y1' x0' x1' : Z) :
  wf_ndarray a → shape a = (nz, ny, nx) →
  0 ≤ z0 ≤ z1 ∧ z1 < nz → 0 ≤ y0 ≤ y1 ∧ y1 < ny → 0 ≤ x0 ≤ x1 ∧ x1 < nx →
  0 ≤ z0' ≤ z1' ∧ z1' ≤ z1 - z0 →
  0 ≤ y0' ≤ y1' ∧ y1' ≤ y1 - y0 →
  0 ≤ x0' ≤ x1' ∧ x1' ≤ x1 - x0 →
  nd_slice (nd_slice a z0 (z1 + 1) y0 (y1 + 1) x0 (x1 + 1))
    z0' (z1' + 1) y0' (y1' + 1) x0' (x1' + 1)
  = nd_slice a (z0 + z0') (z0 + z1' + 1) (y0 + y0') (y0 + y1' + 1)
      (x0 + x0') (x0 + x1' + 1).
Proof.
  intros Hwf Hsh Hz Hy Hx Hz' Hy' Hx'.
  unfold wf_ndarray in Hwf. rewrite Hsh in Hwf. destruct Hwf as [Hlen Hplanes].
  unfold nd_slice. rewrite Hsh. cbn. f_equal.
  - rewrite !slice_len_in by (rewrite ?slice_len_in; lia).
    f_equal; [f_equal|]; lia.
  - rewrite py_slice_fmap, <- list_fmap_compose.
    rewrite py_slice_py_slice by lia.
    replace (z0 + (z1' + 1)) with (z0 + z1' + 1) by lia.
    apply Forall_fmap_ext_1.
    eapply Forall_impl; [apply py_slice_Forall, Hplanes|].
    intros plane [Hpl Hrows]. cbn in *.
    rewrite py_slice_fmap, <- list_fmap_compose.
    rewrite py_slice_py_slice by lia.
    replace (y0 + (y1' + 1)) with (y0 + y1' + 1) by lia.
    apply Forall_fmap_ext_1.
    eapply Forall_impl; [apply py_slice_Forall, Hrows|].
    intros row Hrow. cbn in *.
    rewrite py_slice_py_slice by lia.
    by replace (x0 + (x1' + 1)) with (x0 + x1' + 1) by lia.
Qed.

(** With the ROI that spans the whole volume, [(0, Z-1, 0, Y-1, 0, X-1)],
    [preprocess_volume] returns what it returns without a ROI: a copy of the
    volume. *)
Theorem preprocess_volume_full_roi (h : store) (volume : loc) (a : ndarray)
    (nz ny nx : Z) :
  h !! volume = Some a →
  wf_ndarray a →
  shape a = (nz, ny, nx) →
  0 ≤ ny → 0 ≤ nx →
  BaseSegmenter.preprocess_volume volume
    (Some (0, nz - 1, 0, ny - 1, 0, nx - 1)) h
  = BaseSegmenter.preprocess_volume volume None h
  ∧ BaseSegmenter.preprocess_volume volume None h = Some (length h, h ++ [a]).
Proof.
  intros Ha Hwf Hsh Hny Hnx. unfold BaseSegmenter.preprocess_volume.
  rewrite (nd_copy_Some _ _ _ Ha), Ha. cbn.
  by rewrite (nd_slice_full a nz ny nx).
Qed.

(** Cropping a crop.  Preprocessing the result of [preprocess_volume] with a
    second ROI, given relative to the first box and lying inside it, yields
    the contents and shape that one call on the volume yields for the second
    box moved by the origin of the first. *)
Theorem preprocess_volume_twice (h : store) (volume : loc) (a : ndarray)
    (nz ny nx z0 z1 y0 y1 x0 x1 z0' z1' y0' y1' x0' x1' : Z) :
  h !! volume = Some a →
  wf_ndarray a →
  shape a = (nz, ny, nx) →
  0 ≤ z0 ≤ z1 ∧ z1 < nz → 0 ≤ y0 ≤ y1 ∧ y1 < ny → 0 ≤ x0 ≤ x1 ∧ x1 < nx →
  0 ≤ z0' ≤ z1' ∧ z1' ≤ z1 - z0 →
  0 ≤ y0' ≤ y1' ∧ y1' ≤ y1 - y0 →
  0 ≤ x0' ≤ x1' ∧ x1' ≤ x1 - x0 →
  ∃ l1 h1 l2 sub1 sub2,
    BaseSegmenter.preprocess_volume volume (Some (z0, z1, y0, y1, x0, x1)) h
      = Some (l1, h1)
    ∧ h1 = h ++ [sub1]
    ∧ BaseSegmenter.preprocess_volume l1
        (Some (z0', z1', y0', y1', x0', x1')) h1
      = Some (l2, h1 ++ [sub2])
    ∧ l2 ≠ l1 ∧ l1 ≠ volume ∧ l2 ≠ volume
    ∧ BaseSegmenter.preprocess_volume volume
        (Some (z0 + z0', z0 + z1', y0 + y0', y0 + y1', x0 + x0', x0 + x1')) h
      = Some (l1, h ++ [sub2])
    ∧ shape sub2 = (z1' - z0' + 1, y1' - y0' + 1, x1' - x0' + 1).
Proof.
  intros Ha Hwf Hsh Hz Hy Hx Hz' Hy' Hx'.
  pose proof (lookup_lt_Some _ _ _ Ha) as Hlt.
  eexists (length h), _, (length (h ++ [_])), _, _.
  unfold BaseSegmenter.preprocess_volume, alloc. rewrite Ha. cbn.
  split; [reflexivity|]. split; [reflexivity|].
  rewrite lookup_alloc_new. cbn.
  split; [reflexivity|].
  rewrite length_app. cbn.
  split; [lia|]. split; [lia|]. split; [lia|].
  rewrite (nd_slice_nd_slice a nz ny nx) by done.
  split; [reflexivity|].
  unfold nd_slice. rewrite Hsh. cbn.
  rewrite !slice_len_in by lia. f_equal; [f_equal|]; lia.
Qed.

(** The small volume, whole and cropped twice. *)
Lemma preprocess_volume_full_roi_witness :
  BaseSegmenter.preprocess_volume 0%nat (Some (0, 2 - 1, 0, 3 - 1, 0, 4 - 1))
    [small_volume]
  = BaseSegmenter.preprocess_volume 0%nat None [small_volume].
Proof.
  assert (wf_ndarray small_volume) as Hwf.
  { unfold wf_ndarray, small_volume. cbn. split; [reflexivity|].
    repeat (constructor; [split; [reflexivity|]; repeat constructor|]).
    constructor. }
  apply (preprocess_volume_full_roi [small_volume] 0%nat small_volume 2 3 4
           eq_refl Hwf eq_refl); lia.
Defined.

Lemma preprocess_volume_twice_witness :
  ∃ l1 sub2,
    BaseSegmenter.preprocess_volume 0%nat
      (Some (0 + 1, 0 + 1, 1 + 0, 1 + 1, 1 + 1, 1 + 2)) [small_volume]
    = Some (l1, [small_volume] ++ [sub2])
    ∧ shape sub2 = (1 - 1 + 1, 1 - 0 + 1, 2 - 1 + 1).
Proof.
  assert (wf_ndarray small_volume) as Hwf.
  { unfold wf_ndarray, small_volume. cbn. split; [reflexivity|].
    repeat (constructor; [split; [reflexivity|]; repeat constructor|]).
    constructor. }
  destruct (preprocess_volume_twice [small_volume] 0%nat small_volume
              2 3 4 0 1 1 2 1 3 1 1 0 1 1 2 eq_refl Hwf eq_refl
              ltac:(lia) ltac:(lia) ltac:(lia) ltac:(lia) ltac:(lia) ltac:(lia))
    as (l1 & h1 & l2 & sub1 & sub2 & _ & _ & _ & _ & _ & _ & Hp & Hsh).
  exists l1, sub2. split; [exact Hp|exact Hsh].
Defined.

(** * Properties of the panels and of the projections *)

(** ** [_update_panel_positions] *)



(** ** The projections *)

Lemma mapM_lookup {A B} (f : A → option B) (l : list A) (k : list B) (i : nat) :
  mapM f l = Some k → k !! i = l !! i ≫= f.
Proof.
  intros Hm%mapM_Some_1. revert i.
  induction Hm as [|x y l k Hxy _ IH]; intros [|i]; cbn; auto.
Qed.

Lemma np_index_Some (n i : Z) (idx : nat) :
  np_index n i = Some idx ↔
  - n ≤ i < n ∧ idx = Z.to_nat (if i <? 0 then i + n else i).
Proof.
  unfold np_index. case_bool_decide as Hi.
  - split; [intros [= <-]; done | intros [_ ->]; done].
  - split; [done | intros [? _]; done].
Qed.

Lemma np_index_lt (n i : Z) (idx : nat) :
  np_index n i = Some idx → Z.of_nat idx < n.
Proof.
  intros [Hi ->]%np_index_Some. destruct (Z.ltb_spec i 0); lia.
Qed.

Section Projections.
Variables (a : ndarray) (nz ny nx : Z).
Hypothesis Hwf : wf_ndarray a.
Hypothesis Hshape : shape a = (nz, ny, nx).

Lemma wf_planes :
  Z.of_nat (length (data a)) = nz
  ∧ Forall (λ plane, Z.of_nat (length plane) = ny
                     ∧ Forall (λ row, Z.of_nat (length row) = nx) plane) (data a).
Proof. unfold wf_ndarray in Hwf. by rewrite Hshape in Hwf. Qed.

Lemma nd_axis0_spec (i : Z) :
  match nd_axis0 a i with
  | Some sl =>
      - nz ≤ i < nz ∧ shape2 sl = (ny, nx)
      ∧ ∀ r c, nd2_get sl r c
               = nd_get a (Z.to_nat (if i <? 0 then i + nz else i)) r c
  | None => ¬ (- nz ≤ i < nz)
  end.
Proof.
  destruct wf_planes as [Hlen Hplanes].
  unfold nd_axis0. rewrite Hshape.
  destruct (np_index nz i) as [idx|] eqn:Hidx; cbn.
  - pose proof (np_index_lt _ _ _ Hidx) as Hlt.
    apply np_index_Some in Hidx as [Hi ->].
    destruct (lookup_lt_is_Some_2 (data a)
                (Z.to_nat (if i <? 0 then i + nz else i))) as [plane Hpl]; [lia|].
    rewrite Hpl. cbn. split; [done|]. split; [done|].
    intros r c. unfold nd2_get, nd_get. cbn. by rewrite Hpl.
  - unfold np_index in Hidx. by case_bool_decide.
Qed.

Lemma nd_axis1_spec (i : Z) :
  match nd_axis1 a i with
  | Some sl =>
      - ny ≤ i < ny ∧ shape2 sl = (nz, nx)
      ∧ ∀ r c, nd2_get sl r c
               = nd_get a r (Z.to_nat (if i <? 0 then i + ny else i)) c
  | None => ¬ (- ny ≤ i < ny)
  end.
Proof.
  destruct wf_planes as [Hlen Hplanes].
  unfold nd_axis1. rewrite Hshape.
  destruct (np_index ny i) as [idx|] eqn:Hidx; cbn.
  - pose proof (np_index_lt _ _ _ Hidx) as Hlt.
    apply np_index_Some in Hidx as [Hi ->].
    set (idx := Z.to_nat (if i <? 0 then i + ny else i)) in *.
    destruct (mapM (λ plane : list (list Z), plane !! idx) (data a))
      as [rows|] eqn:Hrows; cbn.
    + split; [done|]. split; [done|]. intros r c.
      unfold nd2_get, nd_get. cbn. rewrite (mapM_lookup _ _ _ r Hrows).
      by destruct (data a !! r).
    + exfalso. apply mapM_None_1, Exists_exists in Hrows as (plane & Hin & Hn).
      rewrite Forall_forall in Hplanes. destruct (Hplanes _ Hin) as [Hpl _].
      apply lookup_ge_None in Hn. lia.
  - unfold np_index in Hidx. by case_bool_decide.
Qed.

Lemma nd_axis2_spec (i : Z) :
  match nd_axis2 a i with
  | Some sl =>
      - nx ≤ i < nx ∧ shape2 sl = (nz, ny)
      ∧ ∀ r c, nd2_get sl r c
               = nd_get a r c (Z.to_nat (if i <? 0 then i + nx else i))
  | None => ¬ (- nx ≤ i < nx)
  end.
Proof.
  destruct wf_planes as [Hlen Hplanes].
  unfold nd_axis2. rewrite Hshape.
  destruct (np_index nx i) as [idx|] eqn:Hidx; cbn.
  - pose proof (np_index_lt _ _ _ Hidx) as Hlt.
    apply np_index_Some in Hidx as [Hi ->].
    set (idx := Z.to_nat (if i <? 0 then i + nx else i)) in *.
    destruct (mapM (λ plane : list (list Z),
                      mapM (λ row : list Z, row !! idx) plane) (data a))
      as [planes|] eqn:Hps; cbn.
    + split; [done|]. split; [done|]. intros r c.
      unfold nd2_get, nd_get. cbn. rewrite (mapM_lookup _ _ _ r Hps).
      destruct (data a !! r) as [plane|] eqn:Hr; cbn; [|done].
      destruct (mapM (λ row : list Z, row !! idx) plane) as [rows|] eqn:Hrows;
        cbn.
      * rewrite (mapM_lookup _ _ _ c Hrows). by destruct (plane !! c).
      * exfalso. apply mapM_None_1, Exists_exists in Hrows as (row & Hin & Hn).
        rewrite Forall_forall in Hplanes.
        destruct (Hplanes plane (list_elem_of_lookup_2 _ _ _ Hr)) as [_ Hrows'].
        rewrite Forall_forall in Hrows'. specialize (Hrows' _ Hin).
        apply lookup_ge_None in Hn. cbn in Hrows'. lia.
    + exfalso. apply mapM_None_1, Exists_exists in Hps as (plane & Hin & Hn).
      apply mapM_None_1, Exists_exists in Hn as (row & Hin' & Hn).
      rewrite Forall_forall in Hplanes. destruct (Hplanes _ Hin) as [_ Hrows].
      rewrite Forall_forall in Hrows. specialize (Hrows _ Hin').
      apply lookup_ge_None in Hn. lia.
  - unfold np_index in Hidx. by case_bool_decide.
Qed.

End Projections.


Lemma get_slice_data_axes_aux (a : ndarray) (nz ny nx : Z) (view : string)
    (current_slice : Z) :
  wf_ndarray a →
  shape a = (nz, ny, nx) →
  let n := _get_max_slice view (shape a) + 1 in
  is_Some (_get_slice_data view current_slice a) ↔ - n ≤ current_slice < n.
Proof.
  intros Hwf Hsh n. subst n. rewrite Hsh.
  pose proof (nd_axis0_spec a nz ny nx Hwf Hsh current_slice) as H0.
  pose proof (nd_axis1_spec a nz ny nx Hwf Hsh current_slice) as H1.
  pose proof (nd_axis2_spec a nz ny nx Hwf Hsh current_slice) as H2.
  unfold _get_slice_data, _get_max_slice. cbn [fst snd].
  case_bool_decide as Ha; [|case_bool_decide as Hc].
  - replace (nz - 1 + 1) with nz by lia.
    destruct (nd_axis0 a current_slice); [|split; [by intros [? ?]|done]].
    split; [by intros _; destruct H0|eauto].
  - replace (ny - 1 + 1) with ny by lia.
    destruct (nd_axis1 a current_slice); [|split; [by intros [? ?]|done]].
    split; [by intros _; destruct H1|eauto].
  - replace (nx - 1 + 1) with nx by lia.
    destruct (nd_axis2 a current_slice); [|split; [by intros [? ?]|done]].
    split; [by intros _; destruct H2|eauto].
Qed.

(** [_get_slice_data] maps the projection to an axis: axial slices are taken
    along z, coronal slices along y, and for every other value of
    [current_view] along x.  On a volume of shape (Z, Y, X) it returns a
    slice exactly when the slice number lies in [-n, n - 1] for the length
    [n] of that axis, that is [_get_max_slice() + 1]; a negative number
    counts from the end instead of raising; outside the range numpy raises
    [IndexError].  The slice has shape (Y, X), (Z, X) or (Z, Y) and holds
    the voxels of the volume at that position of the axis.
    [_get_mask_slice] does the same for a mask. *)
Theorem get_slice_data_axes (a : ndarray) (nz ny nx : Z) (view : string)
    (current_slice : Z) :
  wf_ndarray a →
  shape a = (nz, ny, nx) →
  let n := _get_max_slice view (shape a) + 1 in
  let c := Z.to_nat (if current_slice <? 0 then current_slice + n else current_slice) in
  (is_Some (_get_slice_data view current_slice a) ↔ - n ≤ current_slice < n)
  ∧ _get_mask_slice view current_slice a = _get_slice_data view current_slice a
  ∧ (∀ sl, _get_slice_data view current_slice a = Some sl →
       (view = "axial" →
        shape2 sl = (ny, nx) ∧ ∀ i j, nd2_get sl i j = nd_get a c i j)
       ∧ (view = "coronal" →
          shape2 sl = (nz, nx) ∧ ∀ i j, nd2_get sl i j = nd_get a i c j)
       ∧ (view ≠ "axial" → view ≠ "coronal" →
          shape2 sl = (nz, ny) ∧ ∀ i j, nd2_get sl i j = nd_get a i j c)).
Proof.
  intros Hwf Hsh n c. subst n c. rewrite Hsh.
  pose proof (nd_axis0_spec a nz ny nx Hwf Hsh current_slice) as H0.
  pose proof (nd_axis1_spec a nz ny nx Hwf Hsh current_slice) as H1.
  pose proof (nd_axis2_spec a nz ny nx Hwf Hsh current_slice) as H2.
  split; [|split; [done|]].
  - pose proof (get_slice_data_axes_aux a nz ny nx view current_slice Hwf Hsh) as Haux.
    cbn zeta in Haux. by rewrite Hsh in Haux.
  - intros sl Hsl. unfold _get_slice_data in Hsl. unfold _get_max_slice.
    cbn [fst snd].
    case_bool_decide as Ha; [|case_bool_decide as Hc].
    + replace (nz - 1 + 1) with nz by lia.
      rewrite Hsl in H0. destruct H0 as (_ & Hs & Hg).
      split; [done|]. split; [by intros ->|]. done.
    + replace (ny - 1 + 1) with ny by lia.
      rewrite Hsl in H1. destruct H1 as (_ & Hs & Hg).
      split; [done|]. split; [done|]. done.
    + replace (nx - 1 + 1) with nx by lia.
      rewrite Hsl in H2. destruct H2 as (_ & Hs & Hg).
      split; [done|]. split; [done|]. done.
Qed.


Lemma get_slice_data_axes_witness :
  wf_ndarray small_volume
  ∧ shape small_volume = (2, 3, 4)
  ∧ (is_Some (_get_slice_data "coronal" (-1) small_volume) ↔ - 3 ≤ - 1 < 3)
  ∧ (∀ sl, _get_slice_data "coronal" (-1) small_volume = Some sl →
           shape2 sl = (2, 4) ∧ nd2_get sl 1 3 = nd_get small_volume 1 2 3).
Proof.
  assert (wf_ndarray small_volume) as Hwf.
  { unfold wf_ndarray, small_volume. cbn. split; [reflexivity|].
    repeat (constructor; [split; [reflexivity|]; repeat constructor|]).
    constructor. }
  split; [exact Hwf|]. split; [reflexivity|].
  destruct (get_slice_data_axes small_volume 2 3 4 "coronal" (-1) Hwf eq_refl)
    as (Hr & _ & Hsl).
  split; [exact Hr|].
  intros sl Hs. destruct (Hsl sl Hs) as (_ & Hc & _).
  destruct (Hc eq_refl) as [Hsh Hg]. split; [exact Hsh|]. apply (Hg 1%nat 3%nat).
Defined.


(** * Properties of start-up *)

(** Start-up on a configuration file that exists and parses: no message box
    is shown; the event loop is reached, and its exit code returned, only if
    the document is a dictionary whose [display] entry is a dictionary with
    the three keys [__init__] reads and the rest of [__init__] raises
    nothing; a document without [display] is fatal with the [KeyError] of
    that key, and a document that is no dictionary at all, as the one of an
    empty file, is fatal with [TypeError]; every fatal start returns 1. *)
Theorem startup_needs_display_keys
    (build_window : Yaml → DisplayDefaults → option Exn) (exec_code : Z)
    (config_path : string) (doc : Yaml) :
  let r := main build_window exec_code config_path (Parsed doc) in
  main_dialogs r = []
  ∧ (main_fatal r = None →
     main_code r = exec_code
     ∧ ∃ d wc ww aw,
         subscript "display" doc = inr d
         ∧ subscript "default_window_center" d = inr wc
         ∧ subscript "default_window_width" d = inr ww
         ∧ subscript "auto_window_enabled" d = inr aw
         ∧ build_window doc {| window_center := wc; window_width := ww;
                               auto_window := aw |} = None)
  ∧ (main_fatal r ≠ None → main_code r = 1)
  ∧ (∀ e, subscript "display" doc = inl e → main_fatal r = Some e)
  ∧ ((∀ l, doc = YDict l → list_find (λ kv, kv.1 = "display") l = None) →
     main_fatal r = Some (match doc with YDict _ => KeyError "display"
                                       | _ => TypeError end)).
Proof.
  cbn zeta. unfold main, __init__, _load_config, subscript2.
  destruct (subscript "display" doc) as [e|d] eqn:Hd.
  - cbn. split; [done|]. split; [done|]. split; [done|].
    split; [by intros ? [= ->]|].
    intros Hno. destruct doc; cbn in Hd; try by injection Hd as <-.
    rewrite (Hno _ eq_refl) in Hd. by injection Hd as <-.
  - destruct (subscript "default_window_center" d) as [e1|wc] eqn:H1;
      [|destruct (subscript "default_window_width" d) as [e2|ww] eqn:H2;
        [|destruct (subscript "auto_window_enabled" d) as [e3|aw] eqn:H3;
          [|destruct (build_window doc _) as [e4|] eqn:H4]]]; cbn;
      (split; [done|]); (split; [try done|]);
      try (split; [done|]; split; [done|]; intros Hno;
           destruct doc; cbn in Hd; try done;
           by rewrite (Hno _ eq_refl) in Hd).
    intros _. split; [done|]. by exists d, wc, ww, aw.
Qed.

Lemma startup_needs_display_keys_witness :
  main (λ _ _, None) 0 "config.yaml" (Parsed YNull)
  = {| main_dialogs := []; main_fatal := Some TypeError; main_code := 1 |}
  ∧ main_fatal (main (λ _ _, None) 0 "config.yaml"
                  (Parsed (YDict [("ui", YDict [])])))
    = Some (KeyError "display").
Proof.
  split.
  - destruct (startup_needs_display_keys (λ _ _, None) 0 "config.yaml" YNull)
      as (Hd & _ & Hc & _ & Hf).
    cbn zeta in *.
    destruct (main (λ _ _, None) 0 "config.yaml" (Parsed YNull)) as [dl ft cd].
    cbn in *. rewrite Hd, (Hf ltac:(discriminate)) in *.
    rewrite (Hc ltac:(discriminate)). reflexivity.
  - apply (proj2 (proj2 (proj2 (proj2
             (startup_needs_display_keys (λ _ _, None) 0 "config.yaml"
                (YDict [("ui", YDict [])])))))).
    intros l [= <-]. reflexivity.
Defined.

(** * Properties of the annotations *)

Section ResetRoi.
Context `{Core}.


End ResetRoi.

